(** * PulseX Medical API: request handling and file lifecycle

    A shallow embedding of [backend/main.py]: the module-level set-up
    (upload directories, X-ray service), the [/health] endpoint and the two
    upload handlers [analyze_xray] and [upload_ecg], over an explicit model
    of the file system and of Python exceptions. *)

From Stdlib Require Import ZArith Lia List Ascii String.
From Stdlib Require Strings.Byte.
From stdpp Require Import base gmap strings list fin_maps.

Open Scope string_scope.
Open Scope list_scope.

(** ** Python strings

    Strings are byte strings (the UTF-8 form of the text, so that the length
    of a string is its length in bytes); [str.lower] is the ASCII case
    mapping. *)
Module PyStr.

Definition lower_ascii (c : ascii) : ascii :=
  let n := nat_of_ascii c in
  if (65 <=? n)%nat && (n <=? 90)%nat then ascii_of_nat (n + 32) else c.

Fixpoint lower (s : string) : string :=
  match s with
  | EmptyString => EmptyString
  | String c s' => String (lower_ascii c) (lower s')
  end.

(** [s.startswith(pre)] *)
Definition startswith (s pre : string) : bool := String.prefix pre s.

(** [s[i:]] for [0 <= i] *)
Fixpoint drop (i : nat) (s : string) : string :=
  match i, s with
  | O, _ => s
  | S i', EmptyString => EmptyString
  | S i', String _ s' => drop i' s'
  end.

(** [s.rfind(c)]: the highest index of [c] in [s], or [-1]. *)
Fixpoint rfind (c : ascii) (s : string) : Z :=
  match s with
  | EmptyString => -1
  | String d s' =>
      let r := rfind c s' in
      if (0 <=? r)%Z then (r + 1)%Z
      else if Ascii.eqb c d then 0%Z else (-1)%Z
  end.

Definition len (s : string) : Z := Z.of_nat (String.length s).

(** Zero-padded decimal of width [w] (the low [w] digits of [n]). *)
Definition digit_char (n : nat) : ascii := ascii_of_nat (48 + n mod 10).

Fixpoint dec (w n : nat) : string :=
  match w with
  | O => EmptyString
  | S w' => dec w' (n / 10) +:+ String (digit_char n) EmptyString
  end.

Definition is_digit (c : ascii) : bool :=
  let n := nat_of_ascii c in (48 <=? n)%nat && (n <=? 57)%nat.

Definition is_hex (c : ascii) : bool :=
  let n := nat_of_ascii c in
  is_digit c || ((97 <=? n)%nat && (n <=? 102)%nat).

Fixpoint all (p : ascii -> bool) (s : string) : bool :=
  match s with
  | EmptyString => true
  | String c s' => p c && all p s'
  end.

(** One lower-case hexadecimal digit, as ['%x'] prints a nibble. *)
Definition hex_char (n : Z) : ascii :=
  let k := Z.to_nat (Z.land n 15) in
  if (k <? 10)%nat then ascii_of_nat (48 + k) else ascii_of_nat (87 + k).

(** ['%0<w>x' % n], for [0 <= n < 16^w]: [w] nibbles, most
    significant first. *)
Fixpoint hex (w : nat) (n : Z) : string :=
  match w with
  | O => EmptyString
  | S w' => hex w' (Z.shiftr n 4) +:+ String (hex_char n) EmptyString
  end.

(** [s[i:j]] *)
Definition slice (i j : nat) (s : string) : string :=
  String.substring i (j - i) s.

(** [c in s] *)
Definition has (c : ascii) (s : string) : bool :=
  negb (all (fun d => negb (Ascii.eqb d c)) s).

Definition is_ascii (c : ascii) : bool := (nat_of_ascii c <? 128)%nat.

Definition backslash : ascii := ascii_of_nat 92.
Definition dquote : ascii := ascii_of_nat 34.

(** [repr(s)], as [unicode_repr] writes it: between single quotes, or
    between double quotes when [s] has a single quote and no double one;
    the quote in use and the backslash are escaped with a backslash; tab,
    newline and carriage return are written backslash-t, backslash-n and
    backslash-r, the other control characters backslash-x and two
    hexadecimal digits.  A byte outside ASCII is kept, which is what Python
    does for a printable character. *)
Definition quote_of (s : string) : ascii :=
  if has "'" s && negb (has dquote s) then dquote else "'"%char.

Definition repr_char (q c : ascii) : string :=
  let n := nat_of_ascii c in
  if Ascii.eqb c q || Ascii.eqb c backslash
  then String backslash (String c EmptyString)
  else if (n =? 9)%nat then String backslash "t"
  else if (n =? 10)%nat then String backslash "n"
  else if (n =? 13)%nat then String backslash "r"
  else if (n <? 32)%nat || (n =? 127)%nat
       then String backslash ("x" +:+ hex 2 (Z.of_nat n))
  else String c EmptyString.

Fixpoint repr_body (q : ascii) (s : string) : string :=
  match s with
  | EmptyString => EmptyString
  | String c s' => repr_char q c +:+ repr_body q s'
  end.

Definition repr (s : string) : string :=
  let q := quote_of s in
  String q (repr_body q s +:+ String q EmptyString).

End PyStr.

(** ** pathlib (POSIX flavour)

    A path of the file system is the list of its components below the
    root. *)
Definition path := list string.

Module Pathlib.

(** [s.split('/')] *)
Fixpoint split_slash (s : string) : list string :=
  match s with
  | EmptyString => [EmptyString]
  | String c s' =>
      if Ascii.eqb c "/" then EmptyString :: split_slash s'
      else match split_slash s' with
           | x :: xs => String c x :: xs
           | [] => [String c EmptyString]
           end
  end.

Definition keep_part (x : string) : bool :=
  negb (String.eqb x EmptyString) && negb (String.eqb x ".").

(** The parts of [PurePosixPath(s)] below its anchor: empty and ["."]
    components are dropped, [".."] is kept. *)
Definition parts (s : string) : list string :=
  List.filter keep_part (split_slash s).

Definition is_absolute (s : string) : bool := PyStr.startswith s "/".

(** [base / s] *)
Definition joinpath (base : path) (s : string) : path :=
  if is_absolute s then parts s else base ++ parts s.

(** [p.parent] (the root is its own parent) *)
Definition parent (p : path) : path := removelast p.

(** [PurePath(s).name] *)
Definition name (s : string) : string := List.last (parts s) EmptyString.

(** [PurePath(s).suffix]:
<<
    name = self.name
    i = name.rfind('.')
    if 0 < i < len(name) - 1: return name[i:]
    else: return ''
>> *)
Definition suffix (s : string) : string :=
  let nm := name s in
  let i := PyStr.rfind "." nm in
  if (0 <? i)%Z && (i <? PyStr.len nm - 1)%Z
  then PyStr.drop (Z.to_nat i) nm
  else EmptyString.

(** [str(p)] *)
Definition str (p : path) : string := "/" +:+ String.concat "/" p.

End Pathlib.

Notation "p // s" := (Pathlib.joinpath p s) (at level 40, left associativity).

(** ** uuid *)
Module Uuid.

(** [UUID(bytes=os.urandom(16), version=4).int], [r] being the sixteen
    random bytes read as a big-endian integer:
<<
    int &= ~(0xc000 << 48);  int |= 0x8000 << 48
    int &= ~(0xf000 << 64);  int |= version << 76
>> *)
Definition uuid4_int (r : Z) : Z :=
  let i := Z.land r (Z.lnot (Z.shiftl 0xc000 48)) in
  let i := Z.lor i (Z.shiftl 0x8000 48) in
  let i := Z.land i (Z.lnot (Z.shiftl 0xf000 64)) in
  Z.lor i (Z.shiftl 4 76).

(** [str(u)]: ['%032x' % int] cut as 8-4-4-4-12. *)
Definition to_str (i : Z) : string :=
  let h := PyStr.hex 32 i in
  PyStr.slice 0 8 h +:+ "-" +:+ PyStr.slice 8 12 h +:+ "-" +:+
  PyStr.slice 12 16 h +:+ "-" +:+ PyStr.slice 16 20 h +:+ "-" +:+
  PyStr.drop 20 h.

(** [str(uuid.uuid4())] *)
Definition uuid4 (r : Z) : string := to_str (uuid4_int r).

(** The canonical textual form: 36 characters, dashes at 8, 13, 18 and
    23, lower-case hexadecimal digits elsewhere. *)
Fixpoint canonical_from (i : nat) (s : string) : bool :=
  match s with
  | EmptyString => (i =? 36)%nat
  | String c s' =>
      (if (i =? 8)%nat || (i =? 13)%nat || (i =? 18)%nat || (i =? 23)%nat
       then Ascii.eqb c "-" else PyStr.is_hex c)
      && canonical_from (S i) s'
  end.

Definition canonical (s : string) : bool := canonical_from 0 s.

End Uuid.

(** ** datetime *)

(** A [datetime] value; its fields lie in the ranges of the type (the year
    in 1..9999, the month in 1..12, and so on). *)
Record datetime := {
  year : nat; month : nat; day : nat;
  hour : nat; minute : nat; second : nat; microsecond : nat
}.

Module Datetime.

(** One [strftime] directive; fields are zero-padded to their width. *)
Definition directive (c : ascii) (d : datetime) : string :=
  if Ascii.eqb c "Y" then PyStr.dec 4 (year d)
  else if Ascii.eqb c "m" then PyStr.dec 2 (month d)
  else if Ascii.eqb c "d" then PyStr.dec 2 (day d)
  else if Ascii.eqb c "H" then PyStr.dec 2 (hour d)
  else if Ascii.eqb c "M" then PyStr.dec 2 (minute d)
  else if Ascii.eqb c "S" then PyStr.dec 2 (second d)
  else String "%" (String c EmptyString).

(** [d.strftime(fmt)] *)
Fixpoint strftime (fmt : string) (d : datetime) : string :=
  match fmt with
  | EmptyString => EmptyString
  | String c rest =>
      if Ascii.eqb c "%" then
        match rest with
        | String k rest' => directive k d +:+ strftime rest' d
        | EmptyString => String c EmptyString
        end
      else String c (strftime rest d)
  end.

(** [d.isoformat()]: the fraction is printed only when it is not zero. *)
Definition isoformat (d : datetime) : string :=
  strftime "%Y-%m-%dT%H:%M:%S" d +:+
  (if (microsecond d =? 0)%nat then EmptyString else "." +:+ PyStr.dec 6 (microsecond d)).

End Datetime.

Definition sample_time : datetime :=
  {| year := 2024; month := 3; day := 15;
     hour := 14; minute := 25; second := 30; microsecond := 0 |}.

(** ** Exceptions *)
Inductive exc_class :=
  | AttributeError | TypeError | ValueError
  | OSError | FileNotFoundError | FileExistsError
  | NotADirectoryError | IsADirectoryError
  | RuntimeError.

(** [issubclass(c, OSError)] *)
Definition is_OSError (c : exc_class) : bool :=
  match c with
  | OSError | FileNotFoundError | FileExistsError
  | NotADirectoryError | IsADirectoryError => true
  | _ => false
  end.

(** Every exception here is an [Exception]: [HTTPException] with its status
    and detail, or a built-in one with its class and message. *)
Inductive exn :=
  | HTTPException (status_code : nat) (detail : string)
  | PyExc (cls : exc_class) (msg : string).

(** [str(e)] *)
Definition str_exn (e : exn) : string :=
  match e with
  | HTTPException c d => PyStr.dec 3 c +:+ ": " +:+ d
  | PyExc _ m => m
  end.

(** ** The file system and the effect log *)
Definition bytes := list Byte.byte.

Inductive node :=
  | Dir
  | File (data : bytes).

Inductive event :=
  | FsMkdir (p : path)
  | FsIsDir (p : path)
  | FsOpen (p : path)
  | FsWrite (p : path) (data : bytes)
  | FsExists (p : path)
  | FsUnlink (p : path)
  | FsStat (p : path)
  | Analyze (image_bytes : bytes) (filename : string).

Record World := {
  fs : gmap path node;
  log : list event
}.

(** The root always exists. *)
Definition node_at (t : gmap path node) (p : path) : option node :=
  match p with
  | [] => Some Dir
  | _ => t !! p
  end.

Inductive outcome (A : Type) :=
  | Returned (a : A)
  | Raised (e : exn).
Arguments Returned {A} a.
Arguments Raised {A} e.

(** Computations: state passing over [World], with exceptions. *)
Definition M (A : Type) : Type := World -> outcome A * World.

Definition ret {A} (a : A) : M A := fun w => (Returned a, w).
Definition raise {A} (e : exn) : M A := fun w => (Raised e, w).
Definition bind {A B} (m : M A) (k : A -> M B) : M B :=
  fun w => match m w with
           | (Returned a, w') => k a w'
           | (Raised e, w') => (Raised e, w')
           end.
(** [try: m  except Exception as e: h e] *)
Definition try_except {A} (m : M A) (h : exn -> M A) : M A :=
  fun w => match m w with
           | (Returned a, w') => (Returned a, w')
           | (Raised e, w') => h e w'
           end.

Notation "'let*' x := m 'in' k" := (bind m (fun x => k))
  (at level 10, x name, m at level 100, k at level 200).
Notation "m >> k" := (bind m (fun _ => k))
  (at level 100, k at level 200, right associativity).

Definition emit (e : event) : M unit :=
  fun w => (Returned tt, {| fs := fs w; log := log w ++ [e] |}).
Definition get_fs : M (gmap path node) := fun w => (Returned (fs w), w).
Definition put_fs (t : gmap path node) : M unit :=
  fun w => (Returned tt, {| fs := t; log := log w |}).

(** *** Primitive file operations

    The calls are those of CPython 3.11 on Linux.  An entry of the map is
    found under its path.  A path that has no entry cannot be looked up,
    and [why_missing] tells how the lookup fails.  An [OSError] raised for
    a path prints as its [[Errno n] text], a colon and the [repr] of the
    path. *)
Module Os.

(** The limits of [<limits.h>]: the bytes of one component, and of a whole
    path with its final NUL. *)
Definition NAME_MAX : nat := 255.
Definition PATH_MAX : nat := 4096.

Inductive missing :=
  | NulByte
  | NoEntry
  | NotDir
  | TooLong.

Definition at_path (p : path) : string := ": " +:+ PyStr.repr (Pathlib.str p).

(** The exception of a failed lookup: [ValueError] from Python itself for
    a name with a NUL byte, before any system call; ENOENT, ENOTDIR and
    ENAMETOOLONG from the system. *)
Definition missing_exn (m : missing) (p : path) : exn :=
  match m with
  | NulByte => PyExc ValueError "embedded null byte"
  | NoEntry =>
      PyExc FileNotFoundError ("[Errno 2] No such file or directory" +:+ at_path p)
  | NotDir =>
      PyExc NotADirectoryError ("[Errno 20] Not a directory" +:+ at_path p)
  | TooLong =>
      PyExc OSError ("[Errno 36] File name too long" +:+ at_path p)
  end.

(** The walk towards the component [c] of the directory [rev rp], neither
    of which need exist: the deepest ancestor that exists decides.  In a
    directory, a name above [NAME_MAX] is refused and any other name is not
    found; nothing is found in a regular file. *)
Fixpoint below (t : gmap path node) (rp : list string) (c : string) : missing :=
  match node_at t (rev rp) with
  | Some Dir => if (NAME_MAX <? String.length c)%nat then TooLong else NoEntry
  | Some (File _) => NotDir
  | None =>
      match rp with
      | c' :: rp' => below t rp' c'
      | [] => NoEntry
      end
  end.

(** How the lookup of [p], which has no entry, fails.  With [NoEntry]
    under a parent that is a directory, [p] can be created. *)
Definition why_missing (t : gmap path node) (p : path) : missing :=
  if PyStr.has Ascii.zero (Pathlib.str p) then NulByte
  else if (PATH_MAX <=? String.length (Pathlib.str p))%nat then TooLong
  else below t (rev (Pathlib.parent p)) (List.last p EmptyString).

(** [os.mkdir(p)].  The module body calls it on [uploads], [uploads/ecg]
    and [uploads/xray_temp] under the directory of its own file; the limits
    on names are left out of this call and of [is_dir]. *)
Definition mkdir (p : path) : M unit :=
  emit (FsMkdir p) >>
  let* t := get_fs in
  match node_at t (Pathlib.parent p) with
  | None =>
      raise (PyExc FileNotFoundError
               ("[Errno 2] No such file or directory" +:+ at_path p))
  | Some (File _) =>
      raise (PyExc NotADirectoryError ("[Errno 20] Not a directory" +:+ at_path p))
  | Some Dir =>
      match node_at t p with
      | Some _ => raise (PyExc FileExistsError ("[Errno 17] File exists" +:+ at_path p))
      | None => put_fs (<[p := Dir]> t)
      end
  end.

(** [p.is_dir()] *)
Definition is_dir (p : path) : M bool :=
  emit (FsIsDir p) >>
  let* t := get_fs in
  ret (match node_at t p with Some Dir => true | _ => false end).

(** [p.exists()]:
<<
    try: self.stat()
    except OSError as e:
        if not _ignore_error(e): raise
        return False
    except ValueError: return False
    return True
>>
    [_ignore_error] passes over ENOENT and ENOTDIR (and EBADF and ELOOP,
    which do not arise here), not over ENAMETOOLONG. *)
Definition exists_ (p : path) : M bool :=
  emit (FsExists p) >>
  let* t := get_fs in
  match node_at t p with
  | Some _ => ret true
  | None =>
      match why_missing t p with
      | TooLong => raise (missing_exn TooLong p)
      | _ => ret false
      end
  end.

(** [p.unlink()] *)
Definition unlink (p : path) : M unit :=
  emit (FsUnlink p) >>
  let* t := get_fs in
  match node_at t p with
  | Some (File _) => put_fs (delete p t)
  | Some Dir =>
      raise (PyExc IsADirectoryError ("[Errno 21] Is a directory" +:+ at_path p))
  | None => raise (missing_exn (why_missing t p) p)
  end.

(** [open(p, "wb")]: creates or truncates the file. *)
Definition open_wb (p : path) : M unit :=
  emit (FsOpen p) >>
  let* t := get_fs in
  match node_at t (Pathlib.parent p), node_at t p with
  | Some Dir, Some Dir =>
      raise (PyExc IsADirectoryError ("[Errno 21] Is a directory" +:+ at_path p))
  | Some Dir, Some (File _) => put_fs (<[p := File []]> t)
  | Some Dir, None =>
      match why_missing t p with
      | NoEntry => put_fs (<[p := File []]> t)
      | m => raise (missing_exn m p)
      end
  | _, _ => raise (missing_exn (why_missing t p) p)
  end.

(** [buffer.write(data)] on the file opened at [p]. [room] is the number
    of bytes the device still takes ([None]: no limit); when [data] does
    not fit, the bytes that fit stay in the file and the write raises. *)
Definition write (room : option nat) (p : path) (data : bytes) : M unit :=
  emit (FsWrite p data) >>
  let* t := get_fs in
  match node_at t p with
  | Some (File old) =>
      match room with
      | Some r =>
          if (length data <=? r)%nat then put_fs (<[p := File (old ++ data)]> t)
          else put_fs (<[p := File (old ++ firstn r data)]> t) >>
               raise (PyExc OSError "[Errno 28] No space left on device")
      | None => put_fs (<[p := File (old ++ data)]> t)
      end
  | _ => raise (PyExc OSError "[Errno 9] Bad file descriptor")
  end.

(** [p.stat().st_size] *)
Definition stat_size (p : path) : M nat :=
  emit (FsStat p) >>
  let* t := get_fs in
  match node_at t p with
  | Some (File data) => ret (length data)
  | Some Dir => ret 0%nat
  | None => raise (missing_exn (why_missing t p) p)
  end.

End Os.

(** *** [Path.mkdir(parents, exist_ok)]
<<
    try:
        os.mkdir(self, mode)
    except FileNotFoundError:
        if not parents or self.parent == self: raise
        self.parent.mkdir(parents=True, exist_ok=True)
        self.mkdir(mode, parents=False, exist_ok=exist_ok)
    except OSError:
        if not exist_ok or not self.is_dir(): raise
>>
    The recursion is on the parent, so the function takes the path innermost
    component first. *)
Definition on_exists (p : path) (exist_ok : bool) (e : exn) : M unit :=
  let* d := (if exist_ok then Os.is_dir p else ret false) in
  if d then ret tt else raise e.

Definition mkdir_flat (p : path) (exist_ok : bool) : M unit :=
  try_except (Os.mkdir p)
    (fun e => match e with
              | PyExc FileNotFoundError _ => raise e
              | PyExc cls _ => if is_OSError cls then on_exists p exist_ok e else raise e
              | _ => raise e
              end).

Fixpoint mkdir_rev (rp : list string) (parents exist_ok : bool) : M unit :=
  let p := rev rp in
  try_except (Os.mkdir p)
    (fun e => match e with
              | PyExc FileNotFoundError _ =>
                  match rp with
                  | [] => raise e
                  | _ :: rparent =>
                      if negb parents then raise e
                      else mkdir_rev rparent true true >> mkdir_flat p exist_ok
                  end
              | PyExc cls _ => if is_OSError cls then on_exists p exist_ok e else raise e
              | _ => raise e
              end).

Definition Path_mkdir (p : path) (parents exist_ok : bool) : M unit :=
  mkdir_rev (rev p) parents exist_ok.

Definition empty_world : World := {| fs := ∅; log := [] |}.

(** ** The uploaded file and the request environment *)

(** [fastapi.UploadFile]: the declared name and content type (either may be
    missing), the spooled body, the position of [file.file] when the handler
    starts, and the offset, if any, at which reading the spool raises. *)
Record UploadFile := {
  filename : option string;
  content_type : option string;
  spool : bytes;
  offset : nat;
  defect : option nat
}.

(** What the request draws from outside: the sixteen random bytes of
    [uuid.uuid4()], the successive readings of [datetime.now()], and the
    room left on the device. *)
Record Env := {
  rand128 : Z;
  clock : nat -> datetime;
  room : option nat
}.

(** The bytes a reader gets from position [pos] on, and the exception that
    ends the reading, if any. *)
Definition readable (f : UploadFile) (pos : nat) : bytes * option exn :=
  let rest := skipn pos (spool f) in
  match defect f with
  | Some d =>
      if (pos <=? d)%nat && (d <? length (spool f))%nat
      then (firstn (d - pos) rest, Some (PyExc OSError "[Errno 5] Input/output error"))
      else (rest, None)
  | None => (rest, None)
  end.

(** [await file.read()] with the file at [pos] *)
Definition upload_read (f : UploadFile) (pos : nat) : M bytes :=
  match readable f pos with
  | (b, None) => ret b
  | (_, Some e) => raise e
  end.

(** [shutil.COPY_BUFSIZE] (POSIX) *)
Definition COPY_BUFSIZE : nat := 64 * 1024.

(** The loop of [shutil.copyfileobj], [buffer] opened at [dst]:
<<
    while True:
        buf = fsrc_read(length)
        if not buf: break
        fdst_write(buf)
>>
    [b] is what the reader still delivers and [err] the exception that ends
    the reading, if any; [rm] is the room left on the device.  Every turn
    takes at least one byte from [b], so [fuel] above the length of [b] is
    never used up. *)
Fixpoint copy_loop (fuel : nat) (length : nat) (rm : option nat)
    (b : bytes) (err : option exn) (dst : path) : M unit :=
  match fuel with
  | O => ret tt
  | S fuel' =>
      match b with
      | [] => match err with
              | Some e => raise e
              | None => ret tt
              end
      | _ =>
          let buf := firstn length b in
          Os.write rm dst buf >>
          copy_loop fuel' length
            (option_map (fun r => (r - List.length buf)%nat) rm)
            (skipn length b) err dst
      end
  end.

(** [shutil.copyfileobj(file.file, buffer)]: what can be read is written,
    one buffer of [COPY_BUFSIZE] bytes at a time, then the reader's
    exception, if any, propagates. *)
Definition copyfileobj (rm : option nat) (f : UploadFile) (dst : path) : M unit :=
  let (b, err) := readable f (offset f) in
  copy_loop (S (List.length b)) COPY_BUFSIZE rm b err dst.

(** [o.startswith(pre)] on an optional string *)
Definition opt_startswith (o : option string) (pre : string) : M bool :=
  match o with
  | Some s => ret (PyStr.startswith s pre)
  | None => raise (PyExc AttributeError "'NoneType' object has no attribute 'startswith'")
  end.

(** [Path(o)] on an optional string: the string itself, or [TypeError]. *)
Definition Path_arg (o : option string) : M string :=
  match o with
  | Some s => ret s
  | None => raise (PyExc TypeError "expected str, bytes or os.PathLike object, not NoneType")
  end.

(** ** The X-ray service *)

(** Modelled from the spec: [services/xray_service.py] is not among the
    sources.  The result of an analysis is an opaque value that the handler
    passes through. *)
Definition AnalysisResult := string.

(** Modelled from the spec: [services/xray_service.py] is not among the
    sources.  The gateway is an object with one method,
    [analyze_xray(image_bytes, filename)], that returns a result or raises
    an [Exception]; it makes no file operation of its own. *)
Record XRayService := {
  svc_analyze_xray : bytes -> string -> outcome AnalysisResult
}.

Definition call_analyze_xray (svc : XRayService) (image_bytes : bytes)
    (name : string) : M AnalysisResult :=
  emit (Analyze image_bytes name) >>
  match svc_analyze_xray svc image_bytes name with
  | Returned r => ret r
  | Raised e => raise e
  end.

(** ** Module level *)
Record App := {
  BASE_DIR : path;
  xray_service : option XRayService
}.

Definition UPLOAD_DIR (app : App) : path := BASE_DIR app // "uploads".
Definition ECG_DIR (app : App) : path := UPLOAD_DIR app // "ecg".
Definition XRAY_TEMP_DIR (app : App) : path := UPLOAD_DIR app // "xray_temp".

(** The module body: [file__] is [__file__] (absolute), [ctor] what
    importing and constructing [XRayService] gives.
<<
    BASE_DIR = Path(__file__).parent
    for folder in [ECG_DIR, XRAY_TEMP_DIR]:
        folder.mkdir(parents=True, exist_ok=True)
    try: xray_service = XRayService()
    except Exception as e: xray_service = None
>> *)
Definition load_module (file__ : path) (ctor : outcome XRayService) : M App :=
  let app0 := {| BASE_DIR := Pathlib.parent file__; xray_service := None |} in
  Path_mkdir (ECG_DIR app0) true true >>
  Path_mkdir (XRAY_TEMP_DIR app0) true true >>
  ret {| BASE_DIR := Pathlib.parent file__;
         xray_service := match ctor with
                         | Returned s => Some s
                         | Raised _ => None
                         end |}.

(** ** Endpoints *)
Record HealthResponse := {
  h_status : string;
  h_timestamp : string;
  h_xray_ai : string;
  h_ecg_storage : string
}.

Record XrayResponse := {
  x_success : bool;
  x_result : AnalysisResult;
  x_timestamp : string
}.

(** [size_mb] is kept in hundredths of a MiB. *)
Record FileInfo := {
  fi_filename : string;
  fi_path : string;
  fi_size_mb : Z;
  fi_timestamp : string
}.

Record EcgResponse := {
  e_success : bool;
  e_message : string;
  e_file_info : FileInfo
}.

(** [round(n / d, 2)] in hundredths, for [d > 0]: the nearest hundredth,
    ties to the even one. *)
Definition round2 (n d : Z) : Z :=
  let q := (100 * n / d)%Z in
  let r2 := (2 * ((100 * n) mod d))%Z in
  if (r2 <? d)%Z then q
  else if (d <? r2)%Z then (q + 1)%Z
  else if Z.even q then q else (q + 1)%Z.

(** [GET /health] *)
Definition health_check (app : App) (env : Env) : HealthResponse :=
  {| h_status := "healthy";
     h_timestamp := Datetime.isoformat (clock env 0);
     h_xray_ai := match xray_service app with
                  | Some _ => "active"
                  | None => "inactive"
                  end;
     h_ecg_storage := "active" |}.

(** The staging path of a request: [XRAY_TEMP_DIR / f"{file_id}{file_ext}"]. *)
Definition temp_path_of (app : App) (env : Env) (name : string) : path :=
  XRAY_TEMP_DIR app //
    (Uuid.uuid4 (rand128 env) +:+ PyStr.lower (Pathlib.suffix name)).

(** [if p.exists(): p.unlink()] *)
Definition unlink_if_exists (p : path) : M unit :=
  let* ex := Os.exists_ p in
  if ex then Os.unlink p else ret tt.

(** [POST /api/xray/analyze].  [await file.seek(0)] followed by
    [await file.read()] is the read from position 0.
<<
    if not xray_service: raise HTTPException(503, "X-ray AI not initialized")
    if not file.content_type.startswith('image/'):
        raise HTTPException(400, "Invalid file type")
    file_id = str(uuid.uuid4())
    file_ext = Path(file.filename).suffix.lower()
    temp_path = XRAY_TEMP_DIR / f"{file_id}{file_ext}"
    try:
        await file.seek(0)
        image_bytes = await file.read()
        with open(temp_path, "wb") as buffer: buffer.write(image_bytes)
        result = xray_service.analyze_xray(image_bytes, file.filename)
        if temp_path.exists(): temp_path.unlink()
        return {"success": True, "result": result, "timestamp": ...}
    except Exception as e:
        if temp_path.exists(): temp_path.unlink()
        raise HTTPException(500, f"Analysis Error: {str(e)}")
>> *)
Definition analyze_xray (app : App) (env : Env) (file : UploadFile) : M XrayResponse :=
  match xray_service app with
  | None => raise (HTTPException 503 "X-ray AI not initialized")
  | Some svc =>
      let* is_image := opt_startswith (content_type file) "image/" in
      if negb is_image then raise (HTTPException 400 "Invalid file type")
      else
        let file_id := Uuid.uuid4 (rand128 env) in
        let* name := Path_arg (filename file) in
        let file_ext := PyStr.lower (Pathlib.suffix name) in
        let temp_path := XRAY_TEMP_DIR app // (file_id +:+ file_ext) in
        try_except
          (let* image_bytes := upload_read file 0 in
           Os.open_wb temp_path >>
           Os.write (room env) temp_path image_bytes >>
           let* result :=
             call_analyze_xray svc image_bytes name in
           unlink_if_exists temp_path >>
           ret {| x_success := true;
                  x_result := result;
                  x_timestamp := Datetime.isoformat (clock env 0) |})
          (fun e =>
             unlink_if_exists temp_path >>
             raise (HTTPException 500 ("Analysis Error: " +:+ str_exn e)))
  end.

Definition allowed_extensions : list string := [".png"; ".jpg"; ".jpeg"; ".pdf"].

Definition str_in (s : string) (l : list string) : bool :=
  existsb (String.eqb s) l.

(** The archival name of a request: [f"ecg_{timestamp}_{file_id}{file_ext}"]. *)
Definition unique_filename_of (env : Env) (file_ext : string) : string :=
  "ecg_" +:+ Datetime.strftime "%Y%m%d_%H%M%S" (clock env 0) +:+ "_" +:+
  Uuid.uuid4 (rand128 env) +:+ file_ext.

(** [POST /api/ecg/upload]
<<
    file_ext = Path(file.filename).suffix.lower()
    if file_ext not in allowed_extensions:
        raise HTTPException(400, "Only PNG, JPG, JPEG, PDF allowed")
    file_id = str(uuid.uuid4())
    timestamp = datetime.now().strftime("%Y%m%d_%H%M%S")
    unique_filename = f"ecg_{timestamp}_{file_id}{file_ext}"
    save_path = ECG_DIR / unique_filename
    try:
        with open(save_path, "wb") as buffer:
            shutil.copyfileobj(file.file, buffer)
        return {..., "file_info": {"filename": unique_filename,
                 "path": f"uploads/ecg/{unique_filename}",
                 "size_mb": round(save_path.stat().st_size / (1024 * 1024), 2),
                 "timestamp": datetime.now().isoformat()}}
    except Exception as e:
        raise HTTPException(500, f"Upload Error: {str(e)}")
>> *)
Definition upload_ecg (app : App) (env : Env) (file : UploadFile) : M EcgResponse :=
  let* name := Path_arg (filename file) in
  let file_ext := PyStr.lower (Pathlib.suffix name) in
  if negb (str_in file_ext allowed_extensions)
  then raise (HTTPException 400 "Only PNG, JPG, JPEG, PDF allowed")
  else
    let unique_filename := unique_filename_of env file_ext in
    let save_path := ECG_DIR app // unique_filename in
    try_except
      (Os.open_wb save_path >>
       copyfileobj (room env) file save_path >>
       let* st_size := Os.stat_size save_path in
       ret {| e_success := true;
              e_message := "ECG uploaded successfully";
              e_file_info :=
                {| fi_filename := unique_filename;
                   fi_path := "uploads/ecg/" +:+ unique_filename;
                   fi_size_mb := round2 (Z.of_nat st_size) (1024 * 1024);
                   fi_timestamp := Datetime.isoformat (clock env 1) |} |})
      (fun e => raise (HTTPException 500 ("Upload Error: " +:+ str_exn e))).

(** ** The HTTP layer

    A returned value is a 200 reply; an [HTTPException] is a reply with its
    status and detail; any other exception leaves the application unhandled. *)
Inductive reply (A : Type) :=
  | Ok200 (body : A)
  | ErrorReply (status : nat) (detail : string)
  | Unhandled (e : exn).
Arguments Ok200 {A} body.
Arguments ErrorReply {A} status detail.
Arguments Unhandled {A} e.

Definition respond {A} (o : outcome A) : reply A :=
  match o with
  | Returned a => Ok200 a
  | Raised (HTTPException c d) => ErrorReply c d
  | Raised e => Unhandled e
  end.

Definition serve {A} (handler : M A) (w : World) : reply A * World :=
  let (o, w') := handler w in (respond o, w').

(** ** The blocks of the handlers, and the notions the statements use *)

(** The [try] block and the [except] block of [analyze_xray], [tp] being
    the staging path. *)
Definition xray_try (svc : XRayService) (env : Env) (file : UploadFile)
    (name : string) (tp : path) : M XrayResponse :=
  let* image_bytes := upload_read file 0 in
  Os.open_wb tp >>
  Os.write (room env) tp image_bytes >>
  let* result := call_analyze_xray svc image_bytes name in
  unlink_if_exists tp >>
  ret {| x_success := true;
         x_result := result;
         x_timestamp := Datetime.isoformat (clock env 0) |}.

Definition xray_except (tp : path) (e : exn) : M XrayResponse :=
  unlink_if_exists tp >>
  raise (HTTPException 500 ("Analysis Error: " +:+ str_exn e)).

(** Only [tp] may differ between [t] and [t']. *)
Definition touched_only (tp : path) (t t' : gmap path node) : Prop :=
  forall q, q ≠ tp -> t' !! q = t !! q.

(** The traces the [try] block of [analyze_xray] can leave: the full one
    when it returns, a prefix of it when it raises. *)
Definition full_trace (file : UploadFile) (name : string) (tp : path) : list event :=
  [FsOpen tp; FsWrite tp (spool file); Analyze (spool file) name;
   FsExists tp; FsUnlink tp].

Definition raised_trace (file : UploadFile) (name : string) (tp : path)
    (l : list event) : Prop :=
  l = [] \/ l = [FsOpen tp] \/ l = [FsOpen tp; FsWrite tp (spool file)] \/
  l = [FsOpen tp; FsWrite tp (spool file); Analyze (spool file) name].

(** The [try] block and the [except] block of [upload_ecg]. *)
Definition save_path_of (app : App) (env : Env) (name : string) : path :=
  ECG_DIR app // unique_filename_of env (PyStr.lower (Pathlib.suffix name)).

Definition ecg_try (app : App) (env : Env) (file : UploadFile)
    (file_ext : string) : M EcgResponse :=
  let unique_filename := unique_filename_of env file_ext in
  let save_path := ECG_DIR app // unique_filename in
  Os.open_wb save_path >>
  copyfileobj (room env) file save_path >>
  let* st_size := Os.stat_size save_path in
  ret {| e_success := true;
         e_message := "ECG uploaded successfully";
         e_file_info :=
           {| fi_filename := unique_filename;
              fi_path := "uploads/ecg/" +:+ unique_filename;
              fi_size_mb := round2 (Z.of_nat st_size) (1024 * 1024);
              fi_timestamp := Datetime.isoformat (clock env 1) |} |}.

Definition ecg_except (e : exn) : M EcgResponse :=
  raise (HTTPException 500 ("Upload Error: " +:+ str_exn e)).

(** ** Sample requests *)
Definition svc_normal : XRayService :=
  {| svc_analyze_xray := fun _ _ => Returned "Normal" |}.
Definition svc_failing : XRayService :=
  {| svc_analyze_xray := fun _ _ => Raised (PyExc RuntimeError "model crashed") |}.
Definition sample_env : Env :=
  {| rand128 := 0; clock := fun _ => sample_time; room := None |}.
Definition full_disk_env : Env :=
  {| rand128 := 0; clock := fun _ => sample_time; room := Some 2%nat |}.
Definition backend_dir : path := ["srv"; "app"; "backend"].
Definition fresh_world : World :=
  {| fs := {[ ["srv"] := Dir; ["srv"; "app"] := Dir; backend_dir := Dir ]};
     log := [] |}.
Definition sample_app : App :=
  {| BASE_DIR := backend_dir; xray_service := Some svc_normal |}.
Definition offline_app : App :=
  {| BASE_DIR := backend_dir; xray_service := None |}.
(** The world once the module is loaded from [/srv/app/backend/main.py]. *)
Definition served_world : World :=
  snd (load_module (backend_dir ++ ["main.py"]) (Returned svc_normal) fresh_world).
Definition three_bytes : bytes := [Byte.x01; Byte.x02; Byte.x03].
Definition chest_png : UploadFile :=
  {| filename := Some "chest.PNG"; content_type := Some "image/png";
     spool := three_bytes; offset := 0; defect := None |}.
Definition report_docx : UploadFile :=
  {| filename := Some "report.docx"; content_type := Some "text/plain";
     spool := three_bytes; offset := 0; defect := None |}.
Definition untyped_upload : UploadFile :=
  {| filename := Some "chest.png"; content_type := None;
     spool := three_bytes; offset := 0; defect := None |}.
Definition unnamed_upload : UploadFile :=
  {| filename := None; content_type := Some "image/png";
     spool := three_bytes; offset := 0; defect := None |}.

(** ** Directory creation *)

(** From [t] to [t'] nothing is removed or altered; directories may have
    been added. *)
Definition adds_dirs (t t' : gmap path node) : Prop :=
  forall q, node_at t' q = node_at t q \/
            (node_at t q = None /\ node_at t' q = Some Dir).

(** No prefix of [p] is a regular file. *)
Definition clear_path (t : gmap path node) (p : path) : Prop :=
  forall q d, q `prefix_of` p -> node_at t q ≠ Some (File d).

(** What one [mkdir] call guarantees: nothing is lost; a call that returns
    leaves a directory (under an existing parent); on an existing directory
    the call returns and changes nothing. *)
Definition mkdir_post (p : path) (w : World) (o : outcome unit) (w' : World) : Prop :=
  adds_dirs (fs w) (fs w') /\
  (o = Returned tt ->
     node_at (fs w') p = Some Dir /\ node_at (fs w') (Pathlib.parent p) ≠ None) /\
  (node_at (fs w) p = Some Dir -> node_at (fs w) (Pathlib.parent p) ≠ None ->
     fs w' = fs w /\ o = Returned tt).

(** ** The status endpoints and the start-up banner *)
Record RootResponse := {
  r_service : string;
  r_status : string;
  r_version : string;
  r_endpoints : list string
}.

(** [GET /] *)
Definition root : RootResponse :=
  {| r_service := "PulseX Medical API";
     r_status := "operational";
     r_version := "2.0.0";
     r_endpoints := ["/api/xray/analyze"; "/api/ecg/upload"; "/health"] |}.

Record NotFoundResponse := {
  nf_status_code : nat;
  nf_error : string;
  nf_available : list string
}.

(** The handler registered for 404. *)
Definition not_found : NotFoundResponse :=
  {| nf_status_code := 404;
     nf_error := "Not Found";
     nf_available := ["/api/xray/analyze"; "/api/ecg/upload"] |}.

(** [s * n] *)
Fixpoint str_repeat (s : string) (n : nat) : string :=
  match n with
  | O => EmptyString
  | S n' => s +:+ str_repeat s n'
  end.

(** [startup()]: the lines it prints, in order.
<<
    print("=" * 70)
    print("PulseX Medical API v2.0.0")
    print("=" * 70)
    print(f"✓ X-ray AI: {'Active' if xray_service else 'Inactive'}")
    print(f"✓ ECG Storage: Active")
    print("=" * 70)
>> *)
Definition startup (app : App) : list string :=
  [ str_repeat "=" 70;
    "PulseX Medical API v2.0.0";
    str_repeat "=" 70;
    "✓ X-ray AI: " +:+ match xray_service app with
                       | Some _ => "Active"
                       | None => "Inactive"
                       end;
    "✓ ECG Storage: Active";
    str_repeat "=" 70 ].

(** ** Notions used by the further properties *)

(** [s] has no path separator. *)
Definition no_slash (s : string) : bool :=
  PyStr.all (fun c => negb (Ascii.eqb c "/")) s.

(** [q] lies in the directory [d] or below it. *)
Definition under (d q : path) : Prop := d `prefix_of` q.

(** The upload [file] sent under another name. *)
Definition renamed (file : UploadFile) (name : string) : UploadFile :=
  {| filename := Some name;
     content_type := content_type file;
     spool := spool file;
     offset := offset file;
     defect := defect file |}.

(** Reading [file] from [pos] meets no defect. *)
Definition reads_cleanly (file : UploadFile) (pos : nat) : Prop :=
  match defect file with
  | Some d => ~ (pos <= d < length (spool file))%nat
  | None => True
  end.

(** The device takes [n] more bytes. *)
Definition has_room (env : Env) (n : nat) : Prop :=
  match room env with
  | Some r => (n <= r)%nat
  | None => True
  end.

(** The buffers in which [copyfileobj] passes [b] on: [n] bytes each, the
    last one what is left. *)
Fixpoint buffers_upto (fuel n : nat) (b : bytes) : list bytes :=
  match fuel with
  | O => []
  | S fuel' =>
      match b with
      | [] => []
      | _ => firstn n b :: buffers_upto fuel' n (skipn n b)
      end
  end.

Definition buffers (n : nat) (b : bytes) : list bytes :=
  buffers_upto (length b) n b.

(** The system takes the path [p]: no NUL byte in it, and fewer than
    [PATH_MAX] bytes. *)
Definition passable (p : path) : bool :=
  negb (PyStr.has Ascii.zero (Pathlib.str p)) &&
  (String.length (Pathlib.str p) <? Os.PATH_MAX)%nat.

(** [p] can name a new file: the system takes it, and its last component
    has at most [NAME_MAX] bytes. *)
Definition fits (p : path) : bool :=
  passable p && (String.length (List.last p EmptyString) <=? Os.NAME_MAX)%nat.

(** Every byte of [s] is an ASCII character. *)
Definition plain (s : string) : bool := PyStr.all PyStr.is_ascii s.

(** ** Further sample requests *)
Definition other_env : Env :=
  {| rand128 := 1; clock := fun _ => sample_time; room := None |}.
Definition scan_pdf : UploadFile :=
  {| filename := Some "../Scan.PDF"; content_type := Some "application/pdf";
     spool := three_bytes; offset := 0; defect := None |}.
Definition failing_app : App :=
  {| BASE_DIR := backend_dir; xray_service := Some svc_failing |}.
(** The served world without its staging directory, and without its
    archive directory. *)
Definition unstaged_world : World :=
  {| fs := {[ ["srv"] := Dir; ["srv"; "app"] := Dir; backend_dir := Dir;
              backend_dir ++ ["uploads"] := Dir;
              backend_dir ++ ["uploads"; "ecg"] := Dir ]};
     log := [] |}.
Definition unarchived_world : World :=
  {| fs := {[ ["srv"] := Dir; ["srv"; "app"] := Dir; backend_dir := Dir;
              backend_dir ++ ["uploads"] := Dir;
              backend_dir ++ ["uploads"; "xray_temp"] := Dir ]};
     log := [] |}.
(** An upload whose extension has 300 bytes, and one with a NUL byte in
    its extension. *)
Definition long_named : UploadFile :=
  {| filename := Some ("a." +:+ str_repeat "x" 300);
     content_type := Some "image/png";
     spool := three_bytes; offset := 0; defect := None |}.
Definition nul_named : UploadFile :=
  {| filename := Some (String "a" (String "." (String "p" (String Ascii.zero "g"))));
     content_type := Some "image/png";
     spool := three_bytes; offset := 0; defect := None |}.
(** A world in which a regular file sits where [uploads/ecg] should be. *)
Definition blocked_world : World :=
  {| fs := {[ ["srv"] := Dir; ["srv"; "app"] := Dir; backend_dir := Dir;
              backend_dir ++ ["uploads"] := Dir;
              backend_dir ++ ["uploads"; "ecg"] := File three_bytes ]};
     log := [] |}.

(** * Properties *)

(** ** The library models on samples *)
Example suffix_png : Pathlib.suffix "scans/Chest.X.PNG" = ".PNG".
Proof. reflexivity. Qed.
Example suffix_hidden : Pathlib.suffix ".bashrc" = EmptyString.
Proof. reflexivity. Qed.
Example suffix_trailing_dot : Pathlib.suffix "report." = EmptyString.
Proof. reflexivity. Qed.
Example lower_ext : PyStr.lower (Pathlib.suffix "a/b.JpEg") = ".jpeg".
Proof. reflexivity. Qed.
Example dec_pad : PyStr.dec 4 2024 = "2024" /\ PyStr.dec 2 7 = "07".
Proof. split; reflexivity. Qed.
Example hex_pad : PyStr.hex 4 255 = "00ff".
Proof. reflexivity. Qed.
Example uuid4_zero : Uuid.uuid4 0 = "00000000-0000-4000-8000-000000000000".
Proof. reflexivity. Qed.
Example uuid4_ones :
  Uuid.uuid4 (2 ^ 128 - 1) = "ffffffff-ffff-4fff-bfff-ffffffffffff".
Proof. reflexivity. Qed.
Example strftime_sample :
  Datetime.strftime "%Y%m%d_%H%M%S" sample_time = "20240315_142530".
Proof. reflexivity. Qed.
Example isoformat_sample :
  Datetime.isoformat sample_time = "2024-03-15T14:25:30".
Proof. reflexivity. Qed.
Example mkdir_parents_demo :
  let w := snd (Path_mkdir ["srv"; "app"; "uploads"; "ecg"] true true empty_world) in
  fs w !! ["srv"; "app"; "uploads"; "ecg"] = Some Dir /\
  fs w !! ["srv"; "app"] = Some Dir /\
  fs w !! ["srv"; "other"] = None.
Proof. vm_compute. auto. Qed.

(** ** Strings, identifiers and names *)
Section StringFacts.

Lemma app_cons c a b : String c a +:+ b = String c (a +:+ b).
Proof. reflexivity. Qed.

Lemma app_empty_l a : EmptyString +:+ a = a.
Proof. reflexivity. Qed.

Lemma app_assoc_str a b c : (a +:+ b) +:+ c = a +:+ (b +:+ c).
Proof. induction a as [|x a IH]; [reflexivity|]. rewrite !app_cons. by rewrite IH. Qed.

Lemma length_app_str a b :
  String.length (a +:+ b) = (String.length a + String.length b)%nat.
Proof. induction a as [|x a IH]; [reflexivity|]. rewrite app_cons. simpl. by rewrite IH. Qed.

Lemma all_app p a b : PyStr.all p (a +:+ b) = PyStr.all p a && PyStr.all p b.
Proof.
  induction a as [|x a IH]; [reflexivity|].
  rewrite app_cons. simpl. rewrite IH. by rewrite andb_assoc.
Qed.

Lemma is_digit_digit_char n : PyStr.is_digit (PyStr.digit_char n) = true.
Proof.
  unfold PyStr.digit_char.
  assert (H : (n mod 10 < 10)%nat) by (apply Nat.mod_upper_bound; lia).
  destruct (n mod 10)%nat as [|k]; [reflexivity|].
  do 9 (destruct k as [|k]; [reflexivity|]). lia.
Qed.

Lemma dec_length w n : String.length (PyStr.dec w n) = w.
Proof.
  revert n. induction w as [|w IH]; intros n; [reflexivity|].
  cbn [PyStr.dec]. rewrite length_app_str, IH. cbn [String.length]. lia.
Qed.

Lemma dec_digits w n : PyStr.all PyStr.is_digit (PyStr.dec w n) = true.
Proof.
  revert n. induction w as [|w IH]; intros n; [reflexivity|].
  cbn [PyStr.dec]. rewrite all_app, IH. cbn [PyStr.all].
  rewrite is_digit_digit_char. reflexivity.
Qed.

Lemma is_hex_hex_char n : PyStr.is_hex (PyStr.hex_char n) = true.
Proof.
  unfold PyStr.hex_char.
  assert (H : (Z.to_nat (Z.land n 15) < 16)%nat).
  { change 15%Z with (Z.ones 4). rewrite Z.land_ones by lia.
    pose proof (Z.mod_pos_bound n (2 ^ 4)). lia. }
  destruct (Z.to_nat (Z.land n 15)) as [|k]; [reflexivity|].
  do 15 (destruct k as [|k]; [reflexivity|]). lia.
Qed.

(** [str(uuid.uuid4())] always has the canonical 8-4-4-4-12 form. *)
Lemma uuid4_canonical r : Uuid.canonical (Uuid.uuid4 r) = true.
Proof.
  unfold Uuid.uuid4, Uuid.to_str. generalize (Uuid.uuid4_int r). intros i.
  cbv -[Z.shiftr PyStr.hex_char PyStr.is_hex].
  rewrite !is_hex_hex_char. reflexivity.
Qed.

Lemma uuid4_head r :
  exists c rest, Uuid.uuid4 r = String c rest /\ PyStr.is_hex c = true.
Proof.
  pose proof (uuid4_canonical r) as H.
  destruct (Uuid.uuid4 r) as [|c rest]; [discriminate|].
  exists c, rest. split; [reflexivity|].
  unfold Uuid.canonical in H. simpl in H. by apply andb_prop in H as [? _].
Qed.

(** The third group of a version-4 identifier starts with [4]. *)
Lemma uuid4_version r :
  Z.land (Z.shiftr (Uuid.uuid4_int r) 76) 15 = 4%Z.
Proof.
  unfold Uuid.uuid4_int.
  apply Z.bits_inj'. intros n Hn.
  rewrite Z.land_spec, Z.shiftr_spec by lia.
  rewrite Z.lor_spec, Z.land_spec, Z.lor_spec, Z.land_spec.
  destruct (Z.lt_ge_cases n 4) as [Hlt|Hge].
  - assert (Hc : (n = 0 \/ n = 1 \/ n = 2 \/ n = 3)%Z) by lia.
    destruct Hc as [->|[->|[->| ->]]];
      match goal with |- context [Z.testbit r ?k] => generalize (Z.testbit r k) end;
      intros b; vm_compute; destruct b; reflexivity.
  - replace (Z.testbit 15 n) with false.
    2:{ symmetry. change 15%Z with (Z.ones 4). apply Z.ones_spec_high. lia. }
    rewrite andb_false_r. symmetry.
    apply Z.bits_above_log2; [lia|]. change (Z.log2 4) with 2%Z. lia.
Qed.

Lemma strftime_compact d :
  Datetime.strftime "%Y%m%d_%H%M%S" d =
  (PyStr.dec 4 (year d) +:+ PyStr.dec 2 (month d) +:+ PyStr.dec 2 (day d)) +:+
  "_" +:+
  (PyStr.dec 2 (hour d) +:+ PyStr.dec 2 (minute d) +:+ PyStr.dec 2 (second d)).
Proof.
  cbn [Datetime.strftime Ascii.eqb Bool.eqb Datetime.directive].
  rewrite !app_assoc_str. reflexivity.
Qed.

End StringFacts.

(** ** Running computations *)
Section Running.
Context {A B : Type}.

Lemma bind_ret (a : A) (k : A -> M B) w : bind (ret a) k w = k a w.
Proof. reflexivity. Qed.

Lemma bind_raise (e : exn) (k : A -> M B) w : bind (raise e) k w = (Raised e, w).
Proof. reflexivity. Qed.

Lemma bind_inv (m : M A) (k : A -> M B) w o w' :
  bind m k w = (o, w') ->
  (exists a w1, m w = (Returned a, w1) /\ k a w1 = (o, w')) \/
  (exists e, m w = (Raised e, w') /\ o = Raised e).
Proof.
  unfold bind. destruct (m w) as [[a|e] w1]; intros H.
  - left. by exists a, w1.
  - right. exists e. by inversion H.
Qed.

Lemma try_inv (m : M A) (h : exn -> M A) w o w' :
  try_except m h w = (o, w') ->
  (exists a, m w = (Returned a, w') /\ o = Returned a) \/
  (exists e w1, m w = (Raised e, w1) /\ h e w1 = (o, w')).
Proof.
  unfold try_except. destruct (m w) as [[a|e] w1]; intros H.
  - left. exists a. by inversion H.
  - right. by exists e, w1.
Qed.
End Running.

Ltac inv_bind H :=
  let a := fresh "a" in let w1 := fresh "w" in let e := fresh "e" in
  let H1 := fresh H in
  apply bind_inv in H as [(a & w1 & H1 & H) | (e & H & ->)].

Ltac prim H :=
  cbv [bind ret raise emit get_fs put_fs
       Os.mkdir Os.is_dir Os.exists_ Os.unlink Os.open_wb Os.write Os.stat_size] in H;
  cbn [fs log] in H.

(** ** The file system *)
Section FileSystem.
Implicit Types (t : gmap path node) (p q : path) (w : World).

Lemma node_at_ne t p : p ≠ [] -> node_at t p = t !! p.
Proof. by destruct p. Qed.

(** Deleting a path if it exists: the path is gone afterwards, unless it
    is a directory, which [unlink] refuses. *)
Lemma unlink_if_exists_inv p w o w' :
  p ≠ [] ->
  unlink_if_exists p w = (o, w') ->
  match fs w !! p with
  | Some Dir =>
      fs w' = fs w /\ (exists e, o = Raised e) /\
      log w' = log w ++ [FsExists p; FsUnlink p]
  | Some (File _) =>
      fs w' = delete p (fs w) /\ o = Returned tt /\
      log w' = log w ++ [FsExists p; FsUnlink p]
  | None =>
      fs w' = fs w /\ log w' = log w ++ [FsExists p] /\
      match Os.why_missing (fs w) p with
      | Os.TooLong => o = Raised (Os.missing_exn Os.TooLong p)
      | _ => o = Returned tt
      end
  end.
Proof.
  intros Hp H. unfold unlink_if_exists in H. prim H.
  rewrite <- (node_at_ne (fs w) p Hp).
  destruct (node_at (fs w) p) as [[|d]|] eqn:E; prim H; rewrite ?E in H.
  - inversion H; subst; clear H; cbn [fs log]; rewrite <- ?app_assoc; eauto.
  - inversion H; subst; clear H; cbn [fs log]; rewrite <- ?app_assoc; eauto.
  - destruct (Os.why_missing (fs w) p); prim H;
      inversion H; subst; clear H; cbn [fs log]; eauto.
Qed.

Lemma open_wb_inv p w o w' :
  p ≠ [] ->
  Os.open_wb p w = (o, w') ->
  log w' = log w ++ [FsOpen p] /\
  ((o = Returned tt /\ fs w !! p ≠ Some Dir /\
    node_at (fs w) (Pathlib.parent p) = Some Dir /\
    fs w' = <[p := File []]> (fs w)) \/
   (exists e, o = Raised e /\ fs w' = fs w)).
Proof.
  intros Hp H. prim H. rewrite (node_at_ne _ p Hp) in H.
  destruct (node_at (fs w) (Pathlib.parent p)) as [[|?]|];
    [destruct (fs w !! p) as [[|?]|] eqn:E;
       [| |destruct (Os.why_missing (fs w) p)]|..];
    prim H; inversion H; subst; cbn [fs log]; split; eauto 6;
    left; rewrite E; eauto.
Qed.

Lemma write_inv rm p data old w o w' :
  p ≠ [] ->
  fs w !! p = Some (File old) ->
  Os.write rm p data w = (o, w') ->
  log w' = log w ++ [FsWrite p data] /\
  ((o = Returned tt /\ fs w' = <[p := File (old ++ data)]> (fs w)) \/
   (exists e r, o = Raised e /\ rm = Some r /\ (r < length data)%nat /\
      fs w' = <[p := File (old ++ firstn r data)]> (fs w))).
Proof.
  intros Hp Hold H. prim H. rewrite (node_at_ne _ p Hp), Hold in H.
  destruct rm as [r|]; [destruct (length data <=? r)%nat eqn:E|];
    prim H; inversion H; subst; cbn [fs log]; split; eauto.
  right. eexists _, r. apply Nat.leb_gt in E. eauto.
Qed.

Lemma stat_size_inv p w o w' :
  p ≠ [] ->
  Os.stat_size p w = (o, w') ->
  fs w' = fs w /\ log w' = log w ++ [FsStat p] /\
  match fs w !! p with
  | Some (File data) => o = Returned (length data)
  | Some Dir => o = Returned 0%nat
  | None => exists e, o = Raised e
  end.
Proof.
  intros Hp H. prim H. rewrite (node_at_ne _ p Hp) in H.
  destruct (fs w !! p) as [[|?]|]; prim H; inversion H; subst; cbn [fs log]; eauto.
Qed.

Lemma call_analyze_xray_inv svc b n w o w' :
  call_analyze_xray svc b n w = (o, w') ->
  fs w' = fs w /\ log w' = log w ++ [Analyze b n] /\
  match svc_analyze_xray svc b n with
  | Returned r => o = Returned r
  | Raised e => o = Raised e
  end.
Proof.
  unfold call_analyze_xray. intros H. prim H.
  destruct (svc_analyze_xray svc b n); prim H; inversion H; subst; cbn [fs log]; eauto.
Qed.
End FileSystem.

(** ** Paths of the application *)
Section AppPaths.

Lemma joinpath_rel base s :
  Pathlib.is_absolute s = false -> base // s = base ++ Pathlib.parts s.
Proof. unfold Pathlib.joinpath. by intros ->. Qed.

Lemma upload_dir_eq app : UPLOAD_DIR app = BASE_DIR app ++ ["uploads"].
Proof. reflexivity. Qed.

Lemma ecg_dir_eq app : ECG_DIR app = BASE_DIR app ++ ["uploads"; "ecg"].
Proof.
  unfold ECG_DIR. rewrite joinpath_rel, upload_dir_eq by reflexivity.
  change (Pathlib.parts "ecg") with ["ecg"]. by rewrite <- app_assoc.
Qed.

Lemma xray_temp_dir_eq app :
  XRAY_TEMP_DIR app = BASE_DIR app ++ ["uploads"; "xray_temp"].
Proof.
  unfold XRAY_TEMP_DIR. rewrite joinpath_rel, upload_dir_eq by reflexivity.
  change (Pathlib.parts "xray_temp") with ["xray_temp"]. by rewrite <- app_assoc.
Qed.

Lemma is_absolute_uuid r x : Pathlib.is_absolute (Uuid.uuid4 r +:+ x) = false.
Proof.
  destruct (uuid4_head r) as (c & rest & -> & Hc).
  rewrite app_cons. unfold Pathlib.is_absolute, PyStr.startswith. cbn [String.prefix].
  destruct (ascii_dec "/" c) as [<-|]; [discriminate Hc|reflexivity].
Qed.

Lemma temp_path_ne app env name : temp_path_of app env name ≠ [].
Proof.
  unfold temp_path_of. rewrite joinpath_rel by apply is_absolute_uuid.
  rewrite xray_temp_dir_eq. intros H.
  apply app_eq_nil in H as [H _]. by apply app_eq_nil in H as [_ H].
Qed.

End AppPaths.

(** ** The classification handler *)
Section AnalyzeXray.
Variables (app : App) (svc : XRayService) (env : Env) (file : UploadFile).
Variables (name : string) (tp : path).

(** Reading from position 0 gives the whole body or raises. *)
Lemma upload_read_0 w o w' :
  upload_read file 0 w = (o, w') ->
  w' = w /\ (o = Returned (spool file) \/ exists e, o = Raised e).
Proof.
  unfold upload_read, readable. cbn [skipn].
  destruct (defect file) as [d|].
  - destruct (_ && _); intros H; inversion H; eauto.
  - intros H; inversion H; eauto.
Qed.

Lemma xray_try_inv w o w' :
  tp ≠ [] ->
  xray_try svc env file name tp w = (o, w') ->
  touched_only tp (fs w) (fs w') /\
  (fs w !! tp = Some Dir -> fs w' !! tp = Some Dir) /\
  (fs w !! tp ≠ Some Dir -> fs w' !! tp ≠ Some Dir) /\
  ((exists result,
      o = Returned {| x_success := true; x_result := result;
                      x_timestamp := Datetime.isoformat (clock env 0) |} /\
      svc_analyze_xray svc (spool file) name = Returned result /\
      fs w !! tp ≠ Some Dir /\ fs w' !! tp = None /\
      log w' = log w ++ full_trace file name tp) \/
   (exists e l, o = Raised e /\ log w' = log w ++ l /\ raised_trace file name tp l /\
      ((fs w' = fs w /\ (l = [] \/ l = [FsOpen tp])) \/
       exists d, fs w' !! tp = Some (File d)))).
Proof.
  intros Hp H. unfold xray_try in H.
  inv_bind H.
  2:{ apply upload_read_0 in H as [-> [?|[e' ?]]]; [done|].
      repeat split; try done. right. exists e, []. rewrite app_nil_r.
      unfold raised_trace. auto 8. }
  apply upload_read_0 in H0 as [-> [Ha|[e' ?]]]; [|done].
  inversion Ha; subst a; clear Ha.
  inv_bind H.
  2:{ apply (open_wb_inv _ _ _ _ Hp) in H as (Hl & [(? & _)|(e' & _ & Hfs)]); [done|].
      rewrite Hfs. repeat split; try done. right. exists e, [FsOpen tp].
      unfold raised_trace. auto 8. }
  apply (open_wb_inv _ _ _ _ Hp) in H0 as (Hl1 & [(_ & Hnd & _ & Hfs1)|(e' & ? & _)]); [|done].
  assert (Hold : fs w0 !! tp = Some (File [])).
  { rewrite Hfs1. apply lookup_insert_eq. }
  inv_bind H.
  2:{ apply (write_inv _ _ _ _ _ _ _ Hp Hold) in H
        as (Hl2 & [(? & _)|(e' & r & _ & _ & _ & Hfs2)]); [done|].
      rewrite Hfs2, Hfs1. repeat split.
      - intros q Hq. by rewrite !lookup_insert_ne.
      - intros Hd. done.
      - intros _. by rewrite lookup_insert_eq.
      - right. exists e, [FsOpen tp; FsWrite tp (spool file)].
        rewrite Hl2, Hl1, <- app_assoc, lookup_insert_eq.
        unfold raised_trace. eauto 10. }
  apply (write_inv _ _ _ _ _ _ _ Hp Hold) in H0
    as (Hl2 & [(_ & Hfs2)|(e' & r & ? & _)]); [|done].
  inv_bind H.
  2:{ apply call_analyze_xray_inv in H as (Hfs3 & Hl3 & _).
      rewrite Hfs3, Hfs2, Hfs1. repeat split.
      - intros q Hq. by rewrite !lookup_insert_ne.
      - intros Hd. done.
      - intros _. by rewrite lookup_insert_eq.
      - right. exists e, [FsOpen tp; FsWrite tp (spool file); Analyze (spool file) name].
        rewrite Hl3, Hl2, Hl1, <- !app_assoc, lookup_insert_eq.
        unfold raised_trace. eauto 10. }
  apply call_analyze_xray_inv in H0 as (Hfs3 & Hl3 & Hsvc).
  assert (Hfile : fs w2 !! tp = Some (File ([] ++ spool file))).
  { rewrite Hfs3, Hfs2. apply lookup_insert_eq. }
  inv_bind H.
  2:{ apply (unlink_if_exists_inv _ _ _ _ Hp) in H. rewrite Hfile in H.
      by destruct H as (_ & ? & _). }
  apply (unlink_if_exists_inv _ _ _ _ Hp) in H0. rewrite Hfile in H0.
  destruct H0 as (Hfs4 & _ & Hl4).
  inversion H; subst o w'; clear H.
  rewrite Hfs4, Hfs3, Hfs2, Hfs1. repeat split.
  - intros q Hq. by rewrite lookup_delete_ne, !lookup_insert_ne.
  - intros Hd. done.
  - intros _. by rewrite lookup_delete_eq.
  - left. rewrite lookup_delete_eq.
    destruct (svc_analyze_xray svc (spool file) name) as [res|];
      inversion Hsvc; subst.
    exists res. repeat split; try done.
    rewrite Hl4, Hl3, Hl2, Hl1, <- !app_assoc. reflexivity.
Qed.
End AnalyzeXray.

Section AnalyzeXrayFacts.
Variables (app : App) (env : Env) (file : UploadFile).

(** Past its two checks, the handler is its [try] block under its [except]
    block. *)
Lemma analyze_xray_checked svc ct name w :
  xray_service app = Some svc ->
  content_type file = Some ct ->
  PyStr.startswith ct "image/" = true ->
  filename file = Some name ->
  analyze_xray app env file w =
  try_except (xray_try svc env file name (temp_path_of app env name))
             (xray_except (temp_path_of app env name)) w.
Proof.
  intros Hsvc Hct Himg Hname. unfold analyze_xray, opt_startswith, Path_arg.
  rewrite Hsvc, Hct, Hname, bind_ret, Himg. reflexivity.
Qed.

Lemma analyze_xray_unnamed svc ct w :
  xray_service app = Some svc ->
  content_type file = Some ct ->
  PyStr.startswith ct "image/" = true ->
  filename file = None ->
  exists e, analyze_xray app env file w = (Raised e, w).
Proof.
  intros Hsvc Hct Himg Hname. unfold analyze_xray, opt_startswith, Path_arg.
  rewrite Hsvc, Hct, Hname, bind_ret, Himg. eexists. reflexivity.
Qed.

Lemma touched_only_delete (tp : path) (t t' : gmap path node) :
  touched_only tp t t' -> t' !! tp = None -> t' = delete tp t.
Proof.
  intros Ht Hn. apply map_eq. intros q.
  destruct (decide (q = tp)) as [->|Hq].
  - by rewrite lookup_delete_eq.
  - rewrite lookup_delete_ne by done. by apply Ht.
Qed.

(** What a request that passed the checks leaves behind, and what it logs.
    When the [try] block raises, the clean-up of the [except] block either
    fails on a directory, or succeeds and the 500 error follows, or cannot
    even look the staging path up because its name is too long. *)
Lemma analyze_xray_inv svc ct name w o w' :
  xray_service app = Some svc ->
  content_type file = Some ct ->
  PyStr.startswith ct "image/" = true ->
  filename file = Some name ->
  analyze_xray app env file w = (o, w') ->
  let tp := temp_path_of app env name in
  touched_only tp (fs w) (fs w') /\
  ((exists result,
      o = Returned {| x_success := true; x_result := result;
                      x_timestamp := Datetime.isoformat (clock env 0) |} /\
      svc_analyze_xray svc (spool file) name = Returned result /\
      fs w !! tp ≠ Some Dir /\ fs w' !! tp = None /\
      log w' = log w ++ full_trace file name tp) \/
   (exists e l lx,
      log w' = log w ++ l ++ FsExists tp :: lx /\
      raised_trace file name tp l /\ (lx = [] \/ lx = [FsUnlink tp]) /\
      ((fs w !! tp = Some Dir /\ fs w' !! tp = Some Dir /\
        o = Raised (PyExc IsADirectoryError
                      ("[Errno 21] Is a directory" +:+ Os.at_path tp))) \/
       (fs w !! tp ≠ Some Dir /\ fs w' !! tp = None /\
        o = Raised (HTTPException 500 ("Analysis Error: " +:+ str_exn e))) \/
       (fs w !! tp = None /\ fs w' = fs w /\ (l = [] \/ l = [FsOpen tp]) /\
        lx = [] /\ Os.why_missing (fs w) tp = Os.TooLong /\
        o = Raised (Os.missing_exn Os.TooLong tp))))).
Proof.
  intros Hsvc Hct Himg Hname Hrun tp.
  rewrite (analyze_xray_checked svc ct name) in Hrun by done. fold tp in Hrun.
  pose proof (temp_path_ne app env name) as Hp. fold tp in Hp.
  apply try_inv in Hrun as [(r & Hbody & ->)|(e & w1 & Hbody & Hexc)].
  - apply (xray_try_inv _ _ _ _ _ _ _ _ Hp) in Hbody
      as (Ht & _ & _ & [(res & Hr & Hs & Hnd & Hnone & Hl)|(e & l & ? & _)]); [|done].
    split; [done|]. left. eauto 8.
  - apply (xray_try_inv _ _ _ _ _ _ _ _ Hp) in Hbody
      as (Ht & Hd & Hnd & [(res & ? & _)|(e0 & l & He & Hl & Htr & Hst)]); [done|].
    inversion He; subst e0; clear He.
    unfold xray_except, bind in Hexc.
    destruct (unlink_if_exists tp w1) as [ou w2] eqn:Hun.
    pose proof (unlink_if_exists_inv _ _ _ _ Hp Hun) as Hinv.
    destruct (fs w1 !! tp) as [[|d]|] eqn:E1.
    + destruct Hinv as (Hfs & _ & Hl2).
      unfold unlink_if_exists in Hun. prim Hun.
      rewrite (node_at_ne _ _ Hp), E1 in Hun. prim Hun.
      rewrite (node_at_ne _ _ Hp), E1 in Hun.
      inversion Hun; subst ou w2; clear Hun.
      inversion Hexc; subst o w'; clear Hexc. cbn [fs log] in *.
      assert (Hw : fs w !! tp = Some Dir).
      { destruct (fs w !! tp) as [[|?]|] eqn:E; [done|exfalso; by apply Hnd..]. }
      split; [done|].
      right. exists e, l, [FsUnlink tp].
      rewrite E1, Hl, <- !app_assoc. auto 8.
    + destruct Hinv as (Hfs & -> & Hl2).
      inversion Hexc; subst o w'; clear Hexc.
      assert (Hw : fs w !! tp ≠ Some Dir).
      { intros Hdir. apply Hd in Hdir. congruence. }
      split.
      { intros q Hq. rewrite Hfs, lookup_delete_ne by done. by apply Ht. }
      right. exists e, l, [FsUnlink tp].
      rewrite Hfs, lookup_delete_eq, Hl2, Hl, <- app_assoc. auto 8.
    + destruct Hinv as (Hfs & Hl2 & Hwhy).
      destruct Hst as [(Hsame & Hl')|(d & Hd')]; [|congruence].
      assert (Hw : fs w !! tp = None) by congruence.
      assert (Hfs' : fs w2 = fs w) by congruence.
      rewrite Hsame in Hwhy.
      assert (H500 : ou = Returned tt ->
                touched_only tp (fs w) (fs w') /\
                exists e l lx,
                  log w' = log w ++ l ++ FsExists tp :: lx /\
                  raised_trace file name tp l /\ (lx = [] \/ lx = [FsUnlink tp]) /\
                  ((fs w !! tp = Some Dir /\ fs w' !! tp = Some Dir /\
                    o = Raised (PyExc IsADirectoryError
                                  ("[Errno 21] Is a directory" +:+ Os.at_path tp))) \/
                   (fs w !! tp ≠ Some Dir /\ fs w' !! tp = None /\
                    o = Raised (HTTPException 500 ("Analysis Error: " +:+ str_exn e))) \/
                   (fs w !! tp = None /\ fs w' = fs w /\ (l = [] \/ l = [FsOpen tp]) /\
                    lx = [] /\ Os.why_missing (fs w) tp = Os.TooLong /\
                    o = Raised (Os.missing_exn Os.TooLong tp)))).
      { intros ->. inversion Hexc; subst o w'; clear Hexc.
        split; [intros q _; rewrite Hfs'; reflexivity|].
        exists e, l, []. rewrite Hfs', Hw, Hl2, Hl, <- app_assoc.
        split; [done|]. split; [done|]. split; [by left|]. right. left.
        split; [congruence|]. split; reflexivity. }
      destruct (Os.why_missing (fs w) tp) eqn:Ew;
        [destruct (H500 Hwhy) as (? & ?); split; [done|]; by right..|].
      subst ou. inversion Hexc; subst o w'; clear Hexc.
      split; [intros q _; rewrite Hfs'; reflexivity|].
      right. exists e, l, []. rewrite Hl2, Hl, <- app_assoc.
      split; [done|]. split; [done|]. split; [by left|]. right. right.
      repeat split; assumption || reflexivity.
Qed.

End AnalyzeXrayFacts.

(** C1: for a request that passed the availability and content-type checks,
    no file is left at the staging path [XRAY_TEMP_DIR / {id}{ext}] when the
    handler is done, whether it returns (after the gateway call) or raises
    (the 500 error, or whatever else ends it); nor is any other file
    created or changed.  Unless the staging path was a directory to begin
    with, the file system ends as the initial one with the staging path
    removed. *)
Theorem staged_file_never_outlives_request app svc env file ct w o w' :
  xray_service app = Some svc ->
  content_type file = Some ct ->
  PyStr.startswith ct "image/" = true ->
  analyze_xray app env file w = (o, w') ->
  (forall p d, fs w' !! p = Some (File d) -> fs w !! p = Some (File d)) /\
  (forall name, filename file = Some name ->
     let tp := temp_path_of app env name in
     (forall d, fs w' !! tp ≠ Some (File d)) /\
     (fs w !! tp ≠ Some Dir -> fs w' = delete tp (fs w))).
Proof.
  intros Hsvc Hct Himg Hrun.
  destruct (filename file) as [name|] eqn:Hname.
  2:{ destruct (analyze_xray_unnamed app env file svc ct w Hsvc Hct Himg Hname) as [e He].
      rewrite He in Hrun. inversion Hrun; subst. split; [done|]. intros ? [=]. }
  pose proof (analyze_xray_inv app env file svc ct name w o w'
                Hsvc Hct Himg Hname Hrun) as (Ht & Hcase).
  set (tp := temp_path_of app env name) in *.
  assert (Hfile : forall d, fs w' !! tp ≠ Some (File d)).
  { intros d Hd.
    destruct Hcase as [(? & _ & _ & _ & Hn & _)|
                       (? & ? & ? & _ & _ & _ &
                        [(_ & Hn & _)|[(_ & Hn & _)|(Hn & Hfs & _)]])];
      congruence. }
  split.
  - intros p d Hpd. destruct (decide (p = tp)) as [->|Hne].
    + by apply Hfile in Hpd.
    + by rewrite <- (Ht p Hne).
  - intros name' [= <-]. split; [exact Hfile|]. intros Hnd.
    destruct Hcase as [(res & -> & _ & _ & Hn & _)|
                       (e & l & lx & _ & _ & _ &
                        [(Hd & _)|[(_ & Hn & ->)|(Hn & Hfs & _)]])].
    + by apply touched_only_delete.
    + done.
    + by apply touched_only_delete.
    + rewrite Hfs. symmetry. by apply delete_id.
Qed.

Lemma staged_file_never_outlives_request_witness :
  let run := analyze_xray sample_app sample_env chest_png served_world in
  (forall p d, fs (snd run) !! p = Some (File d) ->
               fs served_world !! p = Some (File d)) /\
  (forall name, filename chest_png = Some name ->
     let tp := temp_path_of sample_app sample_env name in
     (forall d, fs (snd run) !! tp ≠ Some (File d)) /\
     (fs served_world !! tp ≠ Some Dir ->
        fs (snd run) = delete tp (fs served_world))).
Proof.
  exact (staged_file_never_outlives_request sample_app svc_normal sample_env
           chest_png "image/png" served_world _ _
           eq_refl eq_refl eq_refl (surjective_pairing _)).
Defined.

(** The sample request does return, with the full trace. *)
Example analyze_xray_sample_run :
  fst (analyze_xray sample_app sample_env chest_png served_world) =
  Returned {| x_success := true; x_result := "Normal";
              x_timestamp := "2024-03-15T14:25:30" |}.
Proof. vm_compute. reflexivity. Qed.

(** C3: an exception raised by the checks themselves is not converted.  A
    part sent without a content type reaches [analyze_xray] with
    [content_type = None], and [None.startswith] raises [AttributeError]
    outside the [try] block; likewise [Path(None)] raises [TypeError] in
    either handler when the filename is missing.  Both leave the
    application unhandled. *)
Lemma analyze_xray_untyped app svc env file w :
  xray_service app = Some svc ->
  content_type file = None ->
  analyze_xray app env file w =
    (Raised (PyExc AttributeError
               "'NoneType' object has no attribute 'startswith'"), w).
Proof. intros Hsvc Hct. unfold analyze_xray, opt_startswith. by rewrite Hsvc, Hct. Qed.

Lemma upload_ecg_unnamed app env file w :
  filename file = None ->
  upload_ecg app env file w =
    (Raised (PyExc TypeError
               "expected str, bytes or os.PathLike object, not NoneType"), w).
Proof. intros Hname. unfold upload_ecg, Path_arg. by rewrite Hname. Qed.

Theorem missing_content_type_escapes_handler :
  serve (analyze_xray sample_app sample_env untyped_upload) served_world =
    (Unhandled (PyExc AttributeError
                  "'NoneType' object has no attribute 'startswith'"),
     served_world) /\
  serve (upload_ecg sample_app sample_env unnamed_upload) served_world =
    (Unhandled (PyExc TypeError
                  "expected str, bytes or os.PathLike object, not NoneType"),
     served_world).
Proof.
  unfold serve. split.
  - by rewrite (analyze_xray_untyped sample_app svc_normal).
  - by rewrite upload_ecg_unnamed.
Qed.

(** Inside the [try] blocks the conversion does happen: a failing gateway
    gives the 500 reply with the underlying message. *)
Example failing_gateway_is_converted :
  fst (serve (analyze_xray {| BASE_DIR := backend_dir;
                              xray_service := Some svc_failing |}
                sample_env chest_png) served_world) =
  ErrorReply 500 "Analysis Error: model crashed".
Proof. vm_compute. reflexivity. Qed.

(** C9: the availability check comes first.  While the gateway is
    unavailable every request is answered 503 and nothing else happens,
    whatever its content type, also when that is not an image type or is
    missing: the 400 check is not reached. *)
Theorem availability_checked_before_content_type app env file w :
  xray_service app = None ->
  serve (analyze_xray app env file) w =
    (ErrorReply 503 "X-ray AI not initialized", w).
Proof. intros H. unfold serve, analyze_xray. rewrite H. reflexivity. Qed.

Lemma availability_checked_before_content_type_witness :
  serve (analyze_xray offline_app sample_env report_docx) served_world =
    (ErrorReply 503 "X-ray AI not initialized", served_world).
Proof.
  exact (availability_checked_before_content_type offline_app sample_env
           report_docx served_world eq_refl).
Defined.

(** C4 as stated does not hold: a non-image upload made while the gateway
    is unavailable is answered 503, not 400. *)
Lemma non_image_while_unavailable_is_503 :
  content_type report_docx = Some "text/plain" /\
  PyStr.startswith "text/plain" "image/" = false /\
  fst (serve (analyze_xray offline_app sample_env report_docx) served_world) =
    ErrorReply 503 "X-ray AI not initialized" /\
  ~ (exists detail,
       fst (serve (analyze_xray offline_app sample_env report_docx) served_world) =
       ErrorReply 400 detail).
Proof.
  repeat split; try reflexivity.
  intros [detail H]. vm_compute in H. discriminate H.
Qed.

(** C4, amended: while the gateway is available, a request whose declared
    content type does not start with [image/] is answered 400, and the
    world is left as it was: no staging file, no file operation at all.
    (While the gateway is unavailable the same request is answered 503,
    also without any file operation.) *)
Theorem non_image_rejected_before_io app env file ct w :
  content_type file = Some ct ->
  PyStr.startswith ct "image/" = false ->
  (forall svc, xray_service app = Some svc ->
     serve (analyze_xray app env file) w =
       (ErrorReply 400 "Invalid file type", w)) /\
  (xray_service app = None ->
     serve (analyze_xray app env file) w =
       (ErrorReply 503 "X-ray AI not initialized", w)).
Proof.
  intros Hct Himg. split.
  - intros svc Hsvc. unfold serve, analyze_xray, opt_startswith.
    rewrite Hsvc, Hct, bind_ret, Himg. reflexivity.
  - intros Hsvc. unfold serve, analyze_xray. rewrite Hsvc. reflexivity.
Qed.

Lemma non_image_rejected_before_io_witness :
  (forall svc, xray_service sample_app = Some svc ->
     serve (analyze_xray sample_app sample_env report_docx) served_world =
       (ErrorReply 400 "Invalid file type", served_world)) /\
  (xray_service sample_app = None ->
     serve (analyze_xray sample_app sample_env report_docx) served_world =
       (ErrorReply 503 "X-ray AI not initialized", served_world)).
Proof.
  exact (non_image_rejected_before_io sample_app sample_env report_docx
           "text/plain" served_world eq_refl eq_refl).
Defined.

(** The service left by a failed construction. *)
Lemma load_module_inv file__ ctor w o w' :
  load_module file__ ctor w = (o, w') ->
  forall app, o = Returned app ->
    BASE_DIR app = Pathlib.parent file__ /\
    xray_service app = match ctor with
                       | Returned s => Some s
                       | Raised _ => None
                       end.
Proof.
  unfold load_module. intros H app ->.
  apply bind_inv in H as [(? & ? & _ & H)|(? & _ & ?)]; [|done].
  apply bind_inv in H as [(? & ? & _ & H)|(? & _ & ?)]; [|done].
  inversion H; subst. done.
Qed.

(** C5: when constructing the gateway failed, [/health] reports [xray_ai]
    as ["inactive"], and every request to [/api/xray/analyze] is answered
    503 with the world (files and log of file operations) left untouched. *)
Theorem failed_gateway_inactive_and_503 file__ e w app :
  fst (load_module file__ (Raised e) w) = Returned app ->
  (forall env, h_xray_ai (health_check app env) = "inactive") /\
  (forall env file w2,
     serve (analyze_xray app env file) w2 =
       (ErrorReply 503 "X-ray AI not initialized", w2)).
Proof.
  intros H.
  destruct (load_module file__ (Raised e) w) as [o w'] eqn:Hrun. cbn in H. subst o.
  destruct (load_module_inv _ _ _ _ _ Hrun app eq_refl) as (_ & Hsvc).
  split.
  - intros env. unfold health_check. cbn. by rewrite Hsvc.
  - intros env file w2. unfold serve, analyze_xray. by rewrite Hsvc.
Qed.

Lemma failed_gateway_inactive_and_503_witness :
  (forall env, h_xray_ai (health_check offline_app env) = "inactive") /\
  (forall env file w2,
     serve (analyze_xray offline_app env file) w2 =
       (ErrorReply 503 "X-ray AI not initialized", w2)).
Proof.
  refine (failed_gateway_inactive_and_503 (backend_dir ++ ["main.py"])
            (PyExc RuntimeError "model file not found") fresh_world offline_app _).
  vm_compute. reflexivity.
Defined.

(** ** The archival handler *)
Section UploadEcgFacts.
Variables (app : App) (env : Env) (file : UploadFile).

Lemma str_in_In s l : str_in s l = true <-> In s l.
Proof.
  unfold str_in. rewrite existsb_exists. split.
  - intros (x & Hx & Heq). apply String.eqb_eq in Heq. by subst.
  - intros H. exists s. split; [done|]. apply String.eqb_refl.
Qed.

Lemma upload_ecg_checked name w :
  filename file = Some name ->
  In (PyStr.lower (Pathlib.suffix name)) allowed_extensions ->
  upload_ecg app env file w =
  try_except (ecg_try app env file (PyStr.lower (Pathlib.suffix name)))
             ecg_except w.
Proof.
  intros Hname Hin. apply str_in_In in Hin.
  unfold upload_ecg, Path_arg. rewrite Hname, bind_ret, Hin. reflexivity.
Qed.

Lemma upload_ecg_disallowed name w :
  filename file = Some name ->
  ~ In (PyStr.lower (Pathlib.suffix name)) allowed_extensions ->
  upload_ecg app env file w =
    (Raised (HTTPException 400 "Only PNG, JPG, JPEG, PDF allowed"), w).
Proof.
  intros Hname Hin. unfold upload_ecg, Path_arg. rewrite Hname, bind_ret.
  destruct (str_in _ _) eqn:E; [|reflexivity].
  apply str_in_In in E. done.
Qed.

End UploadEcgFacts.

(** C6: a request to [/api/ecg/upload] whose filename has a lowercased
    extension outside [.png], [.jpg], [.jpeg], [.pdf] is answered 400 with
    the detail ["Only PNG, JPG, JPEG, PDF allowed"], and the world is left as
    it was: no file is written, no file operation is made. *)
Theorem disallowed_extension_rejected app env file name w :
  filename file = Some name ->
  ~ In (PyStr.lower (Pathlib.suffix name)) [".png"; ".jpg"; ".jpeg"; ".pdf"] ->
  serve (upload_ecg app env file) w =
    (ErrorReply 400 "Only PNG, JPG, JPEG, PDF allowed", w).
Proof.
  intros Hname Hin. unfold serve.
  by rewrite (upload_ecg_disallowed app env file name).
Qed.

Lemma disallowed_extension_rejected_witness :
  serve (upload_ecg sample_app sample_env report_docx) served_world =
    (ErrorReply 400 "Only PNG, JPG, JPEG, PDF allowed", served_world).
Proof.
  apply (disallowed_extension_rejected sample_app sample_env report_docx
           "report.docx" served_world eq_refl).
  vm_compute. intuition discriminate.
Defined.

Section Archiving.
Variables (app : App) (env : Env) (file : UploadFile).

Lemma is_absolute_unique_filename ext :
  Pathlib.is_absolute (unique_filename_of env ext) = false.
Proof. reflexivity. Qed.

Lemma ecg_path_ne ext : ECG_DIR app // unique_filename_of env ext ≠ [].
Proof.
  rewrite joinpath_rel by apply is_absolute_unique_filename.
  rewrite ecg_dir_eq. intros H.
  apply app_eq_nil in H as [H _]. by apply app_eq_nil in H as [_ H].
Qed.

(** What the reader delivers: the rest of the body, or a prefix of it
    followed by an exception. *)
Lemma readable_inv pos :
  (readable file pos = (drop pos (spool file), None)) \/
  (exists j e, readable file pos = (take j (drop pos (spool file)), Some e)).
Proof.
  unfold readable. destruct (defect file) as [d|]; [|by left].
  destruct (_ && _); [right|left]; eauto.
Qed.

Lemma COPY_BUFSIZE_pos : (0 < COPY_BUFSIZE)%nat.
Proof. unfold COPY_BUFSIZE. lia. Qed.

(** The loop leaves in the destination a prefix of what the reader
    delivers, and all of it when it returns; with fuel above the length of
    what is delivered, it does not stop for want of fuel. *)
Lemma copy_loop_inv n dst err :
  (0 < n)%nat -> dst ≠ [] ->
  forall fuel rm b old w o w',
    (length b < fuel)%nat ->
    fs w !! dst = Some (File old) ->
    copy_loop fuel n rm b err dst w = (o, w') ->
    (o = Returned tt /\ err = None /\ fs w' = <[dst := File (old ++ b)]> (fs w)) \/
    (exists e k, o = Raised e /\
       fs w' = <[dst := File (old ++ take k b)]> (fs w)).
Proof.
  intros Hn Hp. induction fuel as [|fuel IH]; intros rm b old w o w' Hlen Hold H; [lia|].
  cbn [copy_loop] in H. destruct b as [|x b'].
  - destruct err as [e|]; inversion H; subst.
    + right. exists e, 0%nat. split; [done|].
      cbn [take]. rewrite app_nil_r. symmetry. by apply insert_id.
    + left. rewrite app_nil_r. split; [done|]. split; [done|].
      symmetry. by apply insert_id.
  - cbv zeta in H. set (b := x :: b') in *.
    assert (Hb : (0 < length b)%nat) by (cbn; lia).
    apply bind_inv in H as [(u & w1 & Hw & H)|(e & Hw & ->)];
      apply (write_inv _ _ _ _ _ _ _ Hp Hold) in Hw
        as (_ & [(Ho & Hfs)|(e' & r & Ho & _ & _ & Hfs)]); try done.
    + apply (IH _ _ (old ++ take n b)) in H.
      * destruct H as [(-> & -> & Hfs2)|(e & k & -> & Hfs2)].
        -- left. split; [done|]. split; [done|].
           by rewrite Hfs2, Hfs, insert_insert_eq, <- app_assoc, take_drop.
        -- right. exists e, (n + k)%nat. split; [done|].
           by rewrite Hfs2, Hfs, insert_insert_eq, <- app_assoc, take_take_drop.
      * rewrite length_drop. lia.
      * rewrite Hfs. apply lookup_insert_eq.
    + right. exists e, (r `min` n)%nat. split; [done|].
      by rewrite Hfs, take_take.
Qed.

(** The copy leaves in the destination a prefix of what was to be copied,
    and all of it when it returns. *)
Lemma copyfileobj_inv dst old w o w' :
  dst ≠ [] ->
  fs w !! dst = Some (File old) ->
  copyfileobj (room env) file dst w = (o, w') ->
  let rest := drop (offset file) (spool file) in
  (o = Returned tt /\ fs w' = <[dst := File (old ++ rest)]> (fs w)) \/
  (exists e k, o = Raised e /\
     fs w' = <[dst := File (old ++ take k rest)]> (fs w)).
Proof.
  intros Hp Hold H rest. unfold copyfileobj in H.
  destruct (readable_inv (offset file)) as [Hr|(j & e & Hr)];
    rewrite Hr in H; fold rest in H; cbv beta iota in H;
    apply (copy_loop_inv _ _ _ COPY_BUFSIZE_pos Hp _ _ _ _ _ _ _ (Nat.lt_succ_diag_r _) Hold) in H.
  - destruct H as [(-> & _ & Hfs)|(e & k & -> & Hfs)]; eauto.
  - destruct H as [(_ & ? & _)|(e' & k & -> & Hfs)]; [done|].
    right. exists e', (k `min` j)%nat. split; [done|]. by rewrite <- take_take.
Qed.

(** The returned relative path, taken from [BASE_DIR], is the path the
    file was saved at. *)
Lemma split_slash_uploads_ecg s :
  Pathlib.split_slash ("uploads/ecg/" +:+ s) =
  "uploads" :: "ecg" :: Pathlib.split_slash s.
Proof. rewrite !app_cons, app_empty_l. reflexivity. Qed.

Lemma returned_path_is_save_path s :
  Pathlib.is_absolute s = false ->
  BASE_DIR app // ("uploads/ecg/" +:+ s) = ECG_DIR app // s.
Proof.
  intros Hs. rewrite (joinpath_rel (ECG_DIR app)) by done.
  rewrite joinpath_rel by (by rewrite app_cons).
  unfold Pathlib.parts. rewrite split_slash_uploads_ecg.
  cbn [List.filter Pathlib.keep_part String.eqb Ascii.eqb Bool.eqb negb andb].
  rewrite ecg_dir_eq, <- app_assoc. reflexivity.
Qed.

(** [round2] gives the hundredth nearest to [n / d]. *)
Lemma round2_nearest n d :
  (0 < d)%Z -> (2 * Z.abs (100 * n - round2 n d * d) <= d)%Z.
Proof.
  intros Hd. unfold round2.
  pose proof (Z.div_mod (100 * n) d ltac:(lia)) as Hdm.
  pose proof (Z.mod_pos_bound (100 * n) d Hd) as Hb.
  set (q := (100 * n / d)%Z) in *. set (r := ((100 * n) mod d)%Z) in *.
  destruct (Z.ltb_spec (2 * r) d); [nia|].
  destruct (Z.ltb_spec d (2 * r)); [nia|].
  destruct (Z.even q); nia.
Qed.

End Archiving.

(** What an accepted archival request does. *)
Lemma upload_ecg_inv app env file name w o w' :
  filename file = Some name ->
  In (PyStr.lower (Pathlib.suffix name)) allowed_extensions ->
  upload_ecg app env file w = (o, w') ->
  let ext := PyStr.lower (Pathlib.suffix name) in
  let sp := ECG_DIR app // unique_filename_of env ext in
  let rest := drop (offset file) (spool file) in
  (forall q, q ≠ sp -> fs w' !! q = fs w !! q) /\
  ((exists e, fst (Os.open_wb sp w) = Raised e /\ fs w' = fs w /\
      o = Raised (HTTPException 500 ("Upload Error: " +:+ str_exn e))) \/
   (fst (Os.open_wb sp w) = Returned tt /\
    ((exists e k,
        fst (copyfileobj (room env) file sp (snd (Os.open_wb sp w))) = Raised e /\
        fs w' !! sp = Some (File (take k rest)) /\
        o = Raised (HTTPException 500 ("Upload Error: " +:+ str_exn e))) \/
     (fst (copyfileobj (room env) file sp (snd (Os.open_wb sp w))) = Returned tt /\
      fs w' !! sp = Some (File rest) /\
      o = Returned
            {| e_success := true;
               e_message := "ECG uploaded successfully";
               e_file_info :=
                 {| fi_filename := unique_filename_of env ext;
                    fi_path := "uploads/ecg/" +:+ unique_filename_of env ext;
                    fi_size_mb := round2 (Z.of_nat (length rest)) (1024 * 1024);
                    fi_timestamp := Datetime.isoformat (clock env 1) |} |})))).
Proof.
  intros Hname Hin Hrun ext sp rest.
  rewrite (upload_ecg_checked app env file name) in Hrun by done.
  unfold ecg_try, ecg_except in Hrun. fold ext in Hrun. fold sp in Hrun.
  pose proof (ecg_path_ne app env ext) as Hp. fold sp in Hp.
  destruct (Os.open_wb sp w) as [oo w1] eqn:Hopen. cbn [fst snd].
  pose proof (open_wb_inv _ _ _ _ Hp Hopen) as (_ & Hcase).
  apply try_inv in Hrun as [(r & Hbody & ->)|(e & w3 & Hbody & Hexc)].
  - apply bind_inv in Hbody as [([] & w1' & Ho & Hbody)|(? & _ & ?)]; [|done].
    rewrite Hopen in Ho. inversion Ho; subst oo w1'; clear Ho.
    destruct Hcase as [(_ & _ & _ & Hfs1)|(? & ? & _)]; [|done].
    assert (Hold : fs w1 !! sp = Some (File [])).
    { rewrite Hfs1. apply lookup_insert_eq. }
    destruct (copyfileobj (room env) file sp w1) as [oc w2] eqn:Hcopy. cbn [fst].
    apply bind_inv in Hbody as [([] & w2' & Hc & Hbody)|(? & _ & ?)]; [|done].
    rewrite Hcopy in Hc. inversion Hc; subst oc w2'; clear Hc.
    pose proof (copyfileobj_inv env file sp [] w1 _ _ Hp Hold Hcopy) as [(_ & Hfs2)|(? & ? & ? & _)];
      [|done]. rewrite app_nil_l in Hfs2. fold rest in Hfs2.
    apply bind_inv in Hbody as [(n & w3 & Hst & Hbody)|(? & _ & ?)]; [|done].
    apply (stat_size_inv _ _ _ _ Hp) in Hst as (Hfs3 & _ & Hn).
    rewrite Hfs2, lookup_insert_eq in Hn. inversion Hn; subst n; clear Hn.
    inversion Hbody; subst r w'; clear Hbody.
    rewrite Hfs3, Hfs2, Hfs1. split.
    + intros q Hq. by rewrite !lookup_insert_ne.
    + right. split; [done|]. right. rewrite lookup_insert_eq. done.
  - unfold raise in Hexc. inversion Hexc; subst o w3; clear Hexc.
    apply bind_inv in Hbody as [([] & w1' & Ho & Hbody)|(e1 & Ho & [= <-])].
    2:{ rewrite Hopen in Ho. inversion Ho; subst oo w1; clear Ho.
        destruct Hcase as [(? & _)|(? & _ & Hfs1)]; [done|].
        split; [by rewrite Hfs1|]. left. eauto. }
    rewrite Hopen in Ho. inversion Ho; subst oo w1'; clear Ho.
    destruct Hcase as [(_ & _ & _ & Hfs1)|(? & ? & _)]; [|done].
    assert (Hold : fs w1 !! sp = Some (File [])).
    { rewrite Hfs1. apply lookup_insert_eq. }
    destruct (copyfileobj (room env) file sp w1) as [oc w2] eqn:Hcopy. cbn [fst].
    pose proof (copyfileobj_inv env file sp [] w1 _ _ Hp Hold Hcopy) as Hcc.
    cbv zeta in Hcc. fold rest in Hcc.
    apply bind_inv in Hbody as [([] & w2' & Hc & Hbody)|(e2 & Hc & [= <-])].
    + rewrite Hcopy in Hc. inversion Hc; subst oc w2'; clear Hc.
      destruct Hcc as [(_ & Hfs2)|(? & ? & ? & _)]; [|done].
      rewrite app_nil_l in Hfs2.
      apply bind_inv in Hbody as [(n & w3 & Hst & Hbody)|(e3 & Hst & [= <-])]; [done|].
      apply (stat_size_inv _ _ _ _ Hp) in Hst as (_ & _ & Hn).
      rewrite Hfs2, lookup_insert_eq in Hn. done.
    + rewrite Hcopy in Hc. inversion Hc; subst oc w2; clear Hc.
      destruct Hcc as [(? & _)|(e3 & k & [= <-] & Hfs2)]; [done|].
      rewrite app_nil_l in Hfs2. rewrite Hfs2, Hfs1. split.
      * intros q Hq. by rewrite !lookup_insert_ne.
      * right. split; [done|]. left. exists e, k. by rewrite lookup_insert_eq.
Qed.



(** With room for two bytes, two of the three bytes stay in the archive. *)
Example partial_archive_sample :
  fs (snd (upload_ecg sample_app full_disk_env chest_png served_world))
    !! save_path_of sample_app full_disk_env "chest.PNG" =
  Some (File [Byte.x01; Byte.x02]).
Proof. vm_compute. reflexivity. Qed.

Lemma pair_fst_snd {A B} (p : A * B) (a : A) : fst p = a -> p = (a, snd p).
Proof. destruct p. cbn. by intros ->. Qed.

(** C2 as stated does not hold: the timestamp in the archival name is
    [%Y%m%d_%H%M%S], eight digits, an underscore and six digits, not a run
    of fourteen digits. *)
Lemma archive_name_not_fourteen_digit_run :
  exists r,
    fst (upload_ecg sample_app sample_env chest_png served_world) = Returned r /\
    fi_filename (e_file_info r) =
      "ecg_20240315_142530_00000000-0000-4000-8000-000000000000.png" /\
    ~ (exists ts u,
         String.length ts = 14%nat /\
         PyStr.all PyStr.is_digit ts = true /\
         Uuid.canonical u = true /\
         fi_filename (e_file_info r) = "ecg_" +:+ ts +:+ "_" +:+ u +:+ ".png").
Proof.
  eexists. split; [vm_compute; reflexivity|]. split; [reflexivity|].
  cbn [fi_filename e_file_info].
  intros (ts & u & Hlen & Hdig & _ & Heq).
  do 14 (destruct ts as [|? ts]; [discriminate Hlen|]).
  rewrite !app_cons in Heq. injection Heq as <- <- <- <- <- <- <- <- <- _.
  cbn in Hdig. discriminate Hdig.
Qed.

(** C2, amended: a request to [/api/ecg/upload] that returns has a filename
    with an allowed lowercased extension [ext], and its reply names the file
    [ecg_<date>_<time>_<uuid><ext>], [date] being eight digits, [time] six
    digits and [uuid] a canonical identifier; the file exists at the
    returned path [uploads/ecg/<filename>] taken from [BASE_DIR], holding
    the body from the position of the upload on; and [size_mb] is the size
    of that file in MiB rounded to the nearest hundredth (kept here in
    hundredths). *)
Theorem archived_upload_described app env file w r w' :
  upload_ecg app env file w = (Returned r, w') ->
  exists name date time data,
    filename file = Some name /\
    In (PyStr.lower (Pathlib.suffix name)) [".png"; ".jpg"; ".jpeg"; ".pdf"] /\
    String.length date = 8%nat /\ PyStr.all PyStr.is_digit date = true /\
    String.length time = 6%nat /\ PyStr.all PyStr.is_digit time = true /\
    Uuid.canonical (Uuid.uuid4 (rand128 env)) = true /\
    fi_filename (e_file_info r) =
      "ecg_" +:+ date +:+ "_" +:+ time +:+ "_" +:+
      Uuid.uuid4 (rand128 env) +:+ PyStr.lower (Pathlib.suffix name) /\
    fi_path (e_file_info r) = "uploads/ecg/" +:+ fi_filename (e_file_info r) /\
    fs w' !! (BASE_DIR app // fi_path (e_file_info r)) = Some (File data) /\
    data = drop (offset file) (spool file) /\
    fi_size_mb (e_file_info r) = round2 (Z.of_nat (length data)) (1024 * 1024) /\
    (2 * Z.abs (100 * Z.of_nat (length data)
                - fi_size_mb (e_file_info r) * (1024 * 1024))
     <= 1024 * 1024)%Z.
Proof.
  intros Hrun.
  destruct (filename file) as [name|] eqn:Hname.
  2:{ by rewrite upload_ecg_unnamed in Hrun. }
  destruct (str_in (PyStr.lower (Pathlib.suffix name)) allowed_extensions) eqn:Hin.
  2:{ rewrite (upload_ecg_disallowed app env file name) in Hrun; [done..|].
      intros Hc. apply str_in_In in Hc. congruence. }
  apply str_in_In in Hin.
  pose proof (upload_ecg_inv app env file name w _ w' Hname Hin Hrun)
    as (_ & [(? & _ & _ & ?)|(_ & [(? & ? & _ & _ & ?)|(_ & Hfile & Hr)])]);
    [done..|].
  inversion Hr; subst r; clear Hr. cbn [fi_filename fi_path fi_size_mb e_file_info].
  set (d := clock env 0).
  exists name,
    (PyStr.dec 4 (year d) +:+ PyStr.dec 2 (month d) +:+ PyStr.dec 2 (day d)),
    (PyStr.dec 2 (hour d) +:+ PyStr.dec 2 (minute d) +:+ PyStr.dec 2 (second d)),
    (drop (offset file) (spool file)).
  split; [done|]. split; [done|].
  rewrite !length_app_str, !all_app, !dec_length, !dec_digits.
  split; [done|]. split; [done|]. split; [done|]. split; [done|].
  split; [apply uuid4_canonical|].
  split.
  { unfold unique_filename_of. fold d. rewrite strftime_compact.
    by rewrite !app_assoc_str. }
  split; [done|].
  split.
  { rewrite returned_path_is_save_path by apply is_absolute_unique_filename. done. }
  split; [done|]. split; [done|].
  apply round2_nearest. lia.
Qed.

Lemma archived_upload_described_witness :
  exists name date time data,
    filename chest_png = Some name /\
    In (PyStr.lower (Pathlib.suffix name)) [".png"; ".jpg"; ".jpeg"; ".pdf"] /\
    String.length date = 8%nat /\ PyStr.all PyStr.is_digit date = true /\
    String.length time = 6%nat /\ PyStr.all PyStr.is_digit time = true /\
    Uuid.canonical (Uuid.uuid4 (rand128 sample_env)) = true /\
    "ecg_20240315_142530_00000000-0000-4000-8000-000000000000.png" =
      "ecg_" +:+ date +:+ "_" +:+ time +:+ "_" +:+
      Uuid.uuid4 (rand128 sample_env) +:+ PyStr.lower (Pathlib.suffix name) /\
    "uploads/ecg/ecg_20240315_142530_00000000-0000-4000-8000-000000000000.png" =
      "uploads/ecg/" +:+
      "ecg_20240315_142530_00000000-0000-4000-8000-000000000000.png" /\
    fs (snd (upload_ecg sample_app sample_env chest_png served_world))
      !! (BASE_DIR sample_app //
          "uploads/ecg/ecg_20240315_142530_00000000-0000-4000-8000-000000000000.png")
      = Some (File data) /\
    data = drop (offset chest_png) (spool chest_png) /\
    0%Z = round2 (Z.of_nat (length data)) (1024 * 1024) /\
    (2 * Z.abs (100 * Z.of_nat (length data) - 0 * (1024 * 1024))
     <= 1024 * 1024)%Z.
Proof.
  refine (archived_upload_described sample_app sample_env chest_png served_world
            {| e_success := true;
               e_message := "ECG uploaded successfully";
               e_file_info :=
                 {| fi_filename :=
                      "ecg_20240315_142530_00000000-0000-4000-8000-000000000000.png";
                    fi_path :=
                      "uploads/ecg/ecg_20240315_142530_00000000-0000-4000-8000-000000000000.png";
                    fi_size_mb := 0;
                    fi_timestamp := "2024-03-15T14:25:30" |} |}
            _ (pair_fst_snd _ _ _)).
  vm_compute. reflexivity.
Defined.

(** Rounding goes to the nearest hundredth, ties to the even one: 128 KiB
    is 0.125 MiB and is reported as 0.12; 1.5 MiB as 1.50. *)
Example round2_samples :
  round2 131072 (1024 * 1024) = 12%Z /\
  round2 (3 * 524288) (1024 * 1024) = 150%Z /\
  round2 5243 (1024 * 1024) = 1%Z.
Proof. repeat split; reflexivity. Qed.

(** ** Creating the directories *)

Section Mkdir.
Implicit Types (t : gmap path node) (p q : path) (w : World).

Lemma adds_dirs_refl t : adds_dirs t t.
Proof. intros q. by left. Qed.

Lemma adds_dirs_trans t1 t2 t3 :
  adds_dirs t1 t2 -> adds_dirs t2 t3 -> adds_dirs t1 t3.
Proof.
  intros H12 H23 q. destruct (H12 q) as [E12|[E1 E2]], (H23 q) as [E23|[E2' E3]].
  - left. congruence.
  - right. split; congruence.
  - right. split; congruence.
  - congruence.
Qed.

Lemma adds_dirs_insert t p :
  node_at t p = None -> adds_dirs t (<[p := Dir]> t).
Proof.
  intros Hn q. destruct p as [|x p]; [done|].
  destruct q as [|y q]; [by left|]. cbn in *.
  destruct (decide (x :: p = y :: q)) as [<-|Hne].
  - right. by rewrite lookup_insert_eq.
  - left. by rewrite lookup_insert_ne.
Qed.

Lemma adds_dirs_clear t t' p :
  adds_dirs t t' -> clear_path t p -> clear_path t' p.
Proof.
  intros Ha Hc q d Hq Hf. destruct (Ha q) as [E|[_ E]]; [|congruence].
  rewrite E in Hf. by apply (Hc q d).
Qed.

Lemma adds_dirs_keeps_dir t t' p :
  adds_dirs t t' -> node_at t p = Some Dir -> node_at t' p = Some Dir.
Proof. intros Ha Hd. destruct (Ha p) as [E|[E _]]; congruence. Qed.

Lemma adds_dirs_keeps_some t t' p :
  adds_dirs t t' -> node_at t p ≠ None -> node_at t' p ≠ None.
Proof. intros Ha Hd. destruct (Ha p) as [E|[E _]]; congruence. Qed.

Lemma os_mkdir_inv p w o w' :
  Os.mkdir p w = (o, w') ->
  (o = Returned tt /\ node_at (fs w) (Pathlib.parent p) = Some Dir /\
   node_at (fs w) p = None /\ fs w' = <[p := Dir]> (fs w)) \/
  (fs w' = fs w /\
   ((node_at (fs w) (Pathlib.parent p) = None /\
     exists m, o = Raised (PyExc FileNotFoundError m)) \/
    (node_at (fs w) (Pathlib.parent p) ≠ None /\
     (node_at (fs w) (Pathlib.parent p) = Some Dir -> node_at (fs w) p ≠ None) /\
     exists c m, o = Raised (PyExc c m) /\ c ≠ FileNotFoundError /\
                 is_OSError c = true))).
Proof.
  intros H. prim H.
  destruct (node_at (fs w) (Pathlib.parent p)) as [[|?]|] eqn:Ep;
    [destruct (node_at (fs w) p) as [?|] eqn:En|..];
    prim H; inversion H; subst; cbn [fs log]; eauto 10.
Qed.

Lemma on_exists_inv p e w o w' :
  on_exists p true e w = (o, w') ->
  fs w' = fs w /\
  ((node_at (fs w) p = Some Dir /\ o = Returned tt) \/
   (node_at (fs w) p ≠ Some Dir /\ o = Raised e)).
Proof.
  unfold on_exists. intros H. prim H.
  destruct (node_at (fs w) p) as [[|?]|]; prim H; inversion H; subst; cbn [fs]; eauto.
Qed.

End Mkdir.

Section MkdirParents.
Implicit Types (t : gmap path node) (p q : path) (w : World).

Lemma node_at_insert_eq t p n : p ≠ [] -> node_at (<[p := n]> t) p = Some n.
Proof. intros Hp. rewrite node_at_ne by done. apply lookup_insert_eq. Qed.

Lemma node_at_none_ne t p : node_at t p = None -> p ≠ [].
Proof. by destruct p. Qed.

(** The step taken when [os.mkdir] returns, or raises an error other than
    [FileNotFoundError]: the [exist_ok] test decides. *)
Lemma mkdir_created p w w' :
  node_at (fs w) (Pathlib.parent p) = Some Dir ->
  node_at (fs w) p = None ->
  fs w' = <[p := Dir]> (fs w) ->
  mkdir_post p w (Returned tt) w'.
Proof.
  intros Hpar Hn Hfs. pose proof (node_at_none_ne _ _ Hn) as Hp.
  pose proof (adds_dirs_insert _ _ Hn) as Ha. rewrite <- Hfs in Ha.
  repeat split; [done| | |congruence..].
  - rewrite Hfs. by apply node_at_insert_eq.
  - apply (adds_dirs_keeps_some _ _ _ Ha). congruence.
Qed.

Lemma mkdir_existing p e w o w' :
  node_at (fs w) (Pathlib.parent p) ≠ None ->
  on_exists p true e w = (o, w') ->
  mkdir_post p w o w' /\
  (node_at (fs w) p = Some Dir -> o = Returned tt).
Proof.
  intros Hpar H. unfold mkdir_post.
  apply on_exists_inv in H as (Hfs & [(Hd & ->)|(Hnd & ->)]);
    rewrite Hfs; (split; [repeat split|]); try done; try apply adds_dirs_refl.
Qed.

Lemma mkdir_flat_inv p w o w' :
  mkdir_flat p true w = (o, w') ->
  mkdir_post p w o w' /\
  (node_at (fs w) (Pathlib.parent p) = Some Dir ->
   (forall d, node_at (fs w) p ≠ Some (File d)) -> o = Returned tt).
Proof.
  unfold mkdir_flat, mkdir_post. intros H.
  apply try_inv in H as [([] & Hm & ->)|(e & w1 & Hm & Hh)];
    apply os_mkdir_inv in Hm
      as [(Ho & Hpar & Hn & Hfs)|(Hfs & [(Hpar & m & Ho)|(Hpar & Hex & c & m & Ho & Hc & Hos)])];
    try done; try (injection Ho as ->).
  - split; [by apply mkdir_created|done].
  - inversion Hh; subst o w'. rewrite Hfs.
    repeat split; try done; try congruence. apply adds_dirs_refl.
  - assert (Hh' : on_exists p true (PyExc c m) w1 = (o, w')).
    { destruct c; try done. }
    clear Hh. assert (Hpar1 : node_at (fs w1) (Pathlib.parent p) ≠ None) by congruence.
    destruct (mkdir_existing _ _ _ _ _ Hpar1 Hh') as ((Ha & Hs & Hi) & Hd).
    rewrite Hfs in *. split; [done|].
    intros Hp Hnf. apply Hd.
    destruct (node_at (fs w) p) as [[|d]|]; [done|by destruct (Hnf d)|by destruct (Hex Hp)].
Qed.

Lemma parent_rev_cons x (rp : list string) : Pathlib.parent (rev (x :: rp)) = rev rp.
Proof. cbn [rev]. apply removelast_last. Qed.

Lemma clear_path_parent t x (rp : list string) :
  clear_path t (rev (x :: rp)) -> clear_path t (rev rp).
Proof.
  intros Hc q d Hq. apply Hc. cbn [rev]. by apply prefix_app_r.
Qed.

(** [mkdir(parents=True, exist_ok=True)]: it returns whenever no prefix of
    the path is a regular file. *)
Lemma mkdir_rev_inv rp : forall w o w',
  mkdir_rev rp true true w = (o, w') ->
  mkdir_post (rev rp) w o w' /\
  (clear_path (fs w) (rev rp) -> o = Returned tt).
Proof.
  unfold mkdir_post.
  induction rp as [|x rp IH]; intros w o w' H.
  - cbn [mkdir_rev rev] in H.
    apply try_inv in H as [([] & Hm & ->)|(e & w1 & Hm & Hh)];
      apply os_mkdir_inv in Hm
        as [(Ho & Hpar & Hn & Hfs)|(Hfs & [(Hpar & m & Ho)|(Hpar & Hex & c & m & Ho & Hc & Hos)])];
      try done; try (injection Ho as ->).
    assert (Hh' : on_exists [] true (PyExc c m) w1 = (o, w')).
    { destruct c; try done. }
    assert (Hpar1 : node_at (fs w1) (Pathlib.parent []) ≠ None) by done.
    destruct (mkdir_existing _ _ _ _ _ Hpar1 Hh') as (Hpost & Hd).
    unfold mkdir_post in Hpost.
    rewrite Hfs in *. split; [done|]. intros _. by apply Hd.
  - cbn [mkdir_rev] in H. set (p := rev (x :: rp)) in *.
    assert (Hparent : Pathlib.parent p = rev rp) by apply parent_rev_cons.
    apply try_inv in H as [([] & Hm & ->)|(e & w1 & Hm & Hh)];
      apply os_mkdir_inv in Hm
        as [(Ho & Hpar & Hn & Hfs)|(Hfs & [(Hpar & m & Ho)|(Hpar & Hex & c & m & Ho & Hc & Hos)])];
      try done; try (injection Ho as ->).
    + split; [by apply mkdir_created|done].
    + cbn [negb] in Hh.
      apply bind_inv in Hh as [([] & w2 & Hrec & Hflat)|(e & Hrec & ->)].
      * apply IH in Hrec as ((Ha1 & Hs1 & _) & _).
        destruct (Hs1 eq_refl) as (Hd1 & _).
        apply mkdir_flat_inv in Hflat as ((Ha2 & Hs2 & _) & Hok).
        rewrite Hfs in *. split; [repeat split|].
        -- by apply (adds_dirs_trans _ (fs w2)).
        -- by apply Hs2.
        -- by apply Hs2.
        -- congruence.
        -- congruence.
        -- intros Hc. apply Hok; [by rewrite Hparent|].
           intros d. apply (adds_dirs_clear _ _ p Ha1 Hc). done.
      * apply IH in Hrec as ((Ha1 & _ & _) & Hok).
        rewrite Hfs in *. split; [repeat split; try done; congruence|].
        intros Hc. apply Hok. by apply (clear_path_parent _ x).
    + assert (Hh' : on_exists p true (PyExc c m) w1 = (o, w')).
      { destruct c; try done. }
      clear Hh.
      assert (Hpar1 : node_at (fs w1) (Pathlib.parent p) ≠ None) by congruence.
      destruct (mkdir_existing _ _ _ _ _ Hpar1 Hh') as (Hpost & Hd).
      unfold mkdir_post in Hpost.
      rewrite Hfs in *. split; [done|].
      intros Hclear. apply Hd.
      assert (Hp : node_at (fs w) (Pathlib.parent p) = Some Dir).
      { destruct (node_at (fs w) (Pathlib.parent p)) as [[|d]|] eqn:E; [done| |done].
        destruct (Hclear (Pathlib.parent p) d); [|done].
        rewrite Hparent. unfold p. cbn [rev]. by apply prefix_app_r. }
      destruct (node_at (fs w) p) as [[|d]|] eqn:E;
        [done|by destruct (Hclear p d)|by destruct (Hex Hp)].
Qed.

End MkdirParents.

Lemma Path_mkdir_inv p w o w' :
  Path_mkdir p true true w = (o, w') ->
  mkdir_post p w o w' /\ (clear_path (fs w) p -> o = Returned tt).
Proof.
  unfold Path_mkdir. intros H. apply mkdir_rev_inv in H.
  by rewrite rev_involutive in H.
Qed.

Lemma parent_two (base : path) a b :
  Pathlib.parent (base ++ [a; b]) = base ++ [a].
Proof.
  change (base ++ [a; b]) with (base ++ [a] ++ [b]).
  rewrite app_assoc. apply removelast_last.
Qed.

(** The two [mkdir] calls of the module body, in order. *)
Lemma load_module_eq file__ ctor w :
  load_module file__ ctor w =
  let base := Pathlib.parent file__ in
  match Path_mkdir (base ++ ["uploads"; "ecg"]) true true w with
  | (Returned _, w1) =>
      match Path_mkdir (base ++ ["uploads"; "xray_temp"]) true true w1 with
      | (Returned _, w2) =>
          (Returned {| BASE_DIR := base;
                       xray_service := match ctor with
                                       | Returned s => Some s
                                       | Raised _ => None
                                       end |}, w2)
      | (Raised e, w2) => (Raised e, w2)
      end
  | (Raised e, w1) => (Raised e, w1)
  end.
Proof.
  unfold load_module. rewrite ecg_dir_eq, xray_temp_dir_eq. cbn [BASE_DIR].
  unfold bind.
  destruct (Path_mkdir _ true true w) as [[[]|e] w1]; [|done].
  destruct (Path_mkdir _ true true w1) as [[[]|e] w2]; done.
Qed.

(** C8 as stated does not hold: the directories are not placed under the
    working directory.  Loaded from [/srv/app/backend/main.py] by a process
    working in [/srv/app], the module creates
    [/srv/app/backend/uploads/...]; nothing appears at
    [/srv/app/uploads/...]. *)
Lemma directories_not_under_working_directory :
  let cwd := ["srv"; "app"] in
  fst (load_module (backend_dir ++ ["main.py"]) (Returned svc_normal) fresh_world)
    = Returned sample_app /\
  node_at (fs served_world) (cwd // "uploads/ecg") = None /\
  node_at (fs served_world) (cwd // "uploads/xray_temp") = None /\
  node_at (fs served_world) (backend_dir // "uploads/ecg") = Some Dir /\
  node_at (fs served_world) (backend_dir // "uploads/xray_temp") = Some Dir.
Proof. repeat split; vm_compute; reflexivity. Qed.

(** C8, amended: loading the module creates [uploads/ecg] and
    [uploads/xray_temp], with their parents, under the directory that holds
    [main.py] ([Path(__file__).parent]).  Nothing that exists is removed or
    altered; the creation succeeds whenever no prefix of the two paths is a
    regular file; when it succeeds both paths are directories; when they
    (and [uploads]) already are directories it does not raise and changes
    nothing; and loading a second time changes nothing more. *)
Theorem upload_directories_created file__ ctor w o w' :
  load_module file__ ctor w = (o, w') ->
  let base := Pathlib.parent file__ in
  let ecg := base ++ ["uploads"; "ecg"] in
  let tmp := base ++ ["uploads"; "xray_temp"] in
  adds_dirs (fs w) (fs w') /\
  (clear_path (fs w) ecg -> clear_path (fs w) tmp -> exists app, o = Returned app) /\
  (forall app, o = Returned app ->
     BASE_DIR app = base /\ ECG_DIR app = ecg /\ XRAY_TEMP_DIR app = tmp /\
     node_at (fs w') ecg = Some Dir /\ node_at (fs w') tmp = Some Dir) /\
  (node_at (fs w) (base ++ ["uploads"]) = Some Dir ->
   node_at (fs w) ecg = Some Dir -> node_at (fs w) tmp = Some Dir ->
     (exists app, o = Returned app) /\ fs w' = fs w) /\
  (forall app, o = Returned app ->
     exists w'', load_module file__ ctor w' = (Returned app, w'') /\ fs w'' = fs w').
Proof.
  intros Hrun base ecg tmp.
  assert (Hpe : Pathlib.parent ecg = base ++ ["uploads"]) by apply parent_two.
  assert (Hpt : Pathlib.parent tmp = base ++ ["uploads"]) by apply parent_two.
  (* two calls on directories that exist change nothing *)
  assert (Hsame : forall v,
            node_at (fs v) (base ++ ["uploads"]) ≠ None ->
            node_at (fs v) ecg = Some Dir -> node_at (fs v) tmp = Some Dir ->
            exists v', load_module file__ ctor v =
                         (Returned {| BASE_DIR := base;
                                      xray_service := match ctor with
                                                      | Returned s => Some s
                                                      | Raised _ => None
                                                      end |}, v') /\
                       fs v' = fs v).
  { intros v Hu He Ht. rewrite load_module_eq. cbv zeta. fold base ecg tmp.
    destruct (Path_mkdir ecg true true v) as [o1 v1] eqn:H1.
    apply Path_mkdir_inv in H1 as ((_ & _ & Hi1) & _). rewrite Hpe in Hi1.
    destruct (Hi1 He Hu) as (Hfs1 & ->).
    destruct (Path_mkdir tmp true true v1) as [o2 v2] eqn:H2.
    apply Path_mkdir_inv in H2 as ((_ & _ & Hi2) & _). rewrite Hpt, Hfs1 in Hi2.
    destruct (Hi2 Ht Hu) as (Hfs2 & ->).
    exists v2. split; [done|]. congruence. }
  rewrite load_module_eq in Hrun. cbv zeta in Hrun. fold base ecg tmp in Hrun.
  destruct (Path_mkdir ecg true true w) as [o1 w1] eqn:H1.
  apply Path_mkdir_inv in H1 as ((Ha1 & Hs1 & Hi1) & Hok1). rewrite Hpe in *.
  destruct o1 as [[]|e1].
  2:{ inversion Hrun; subst o w'; clear Hrun.
      split; [done|]. split; [|split; [done|split; [|done]]].
      - intros Hc _. by apply Hok1 in Hc.
      - intros Hu He _. destruct (Hi1 He) as (_ & ?); [congruence|done]. }
  destruct (Hs1 eq_refl) as (He1 & Hu1).
  destruct (Path_mkdir tmp true true w1) as [o2 w2] eqn:H2.
  apply Path_mkdir_inv in H2 as ((Ha2 & Hs2 & Hi2) & Hok2). rewrite Hpt in *.
  pose proof (adds_dirs_trans _ _ _ Ha1 Ha2) as Ha.
  destruct o2 as [[]|e2]; inversion Hrun; subst o w'; clear Hrun.
  2:{ split; [done|]. split; [|split; [done|split; [|done]]].
      - intros _ Hc. apply (adds_dirs_clear _ _ _ Ha1) in Hc. by apply Hok2 in Hc.
      - intros _ _ Ht. apply (adds_dirs_keeps_dir _ _ _ Ha1) in Ht.
        by destruct (Hi2 Ht Hu1) as (_ & ?). }
  destruct (Hs2 eq_refl) as (Ht2 & Hu2).
  pose proof (adds_dirs_keeps_dir _ _ _ Ha2 He1) as He2.
  split; [done|]. split; [eauto|]. split; [|split].
  - intros app [= <-]. cbn [BASE_DIR]. repeat split; try done.
    + apply ecg_dir_eq.
    + apply xray_temp_dir_eq.
  - intros Hu He Ht. split; [eauto|].
    destruct (Hi1 He) as (Hfs1 & _); [congruence|].
    rewrite Hfs1 in Hi2. destruct (Hi2 Ht) as (Hfs2 & _); [congruence|]. congruence.
  - intros app [= <-]. apply Hsame; done.
Qed.

Lemma upload_directories_created_witness :
  let run := load_module (backend_dir ++ ["main.py"]) (Returned svc_normal) fresh_world in
  let base := Pathlib.parent (backend_dir ++ ["main.py"]) in
  let ecg := base ++ ["uploads"; "ecg"] in
  let tmp := base ++ ["uploads"; "xray_temp"] in
  adds_dirs (fs fresh_world) (fs (snd run)) /\
  (clear_path (fs fresh_world) ecg -> clear_path (fs fresh_world) tmp ->
     exists app, fst run = Returned app) /\
  (forall app, fst run = Returned app ->
     BASE_DIR app = base /\ ECG_DIR app = ecg /\ XRAY_TEMP_DIR app = tmp /\
     node_at (fs (snd run)) ecg = Some Dir /\ node_at (fs (snd run)) tmp = Some Dir) /\
  (node_at (fs fresh_world) (base ++ ["uploads"]) = Some Dir ->
   node_at (fs fresh_world) ecg = Some Dir -> node_at (fs fresh_world) tmp = Some Dir ->
     (exists app, fst run = Returned app) /\ fs (snd run) = fs fresh_world) /\
  (forall app, fst run = Returned app ->
     exists w'', load_module (backend_dir ++ ["main.py"]) (Returned svc_normal) (snd run)
                 = (Returned app, w'') /\ fs w'' = fs (snd run)).
Proof.
  exact (upload_directories_created (backend_dir ++ ["main.py"])
           (Returned svc_normal) fresh_world _ _ (surjective_pairing _)).
Defined.

(** * Further properties of the handlers *)

(** ** File names and paths *)
Section Names.

Lemma all_impl (p q : ascii -> bool) s :
  (forall c, p c = true -> q c = true) ->
  PyStr.all p s = true -> PyStr.all q s = true.
Proof.
  intros Hpq. induction s as [|c s IH]; [done|]. cbn [PyStr.all].
  intros [Hc Hs]%andb_prop. by rewrite (Hpq c Hc), IH.
Qed.

Lemma no_slash_app a b : no_slash (a +:+ b) = no_slash a && no_slash b.
Proof. apply all_app. Qed.

Lemma split_slash_ne s : Pathlib.split_slash s ≠ [].
Proof.
  induction s as [|c s IH]; [done|]. cbn [Pathlib.split_slash].
  destruct (Ascii.eqb c "/"); [done|].
  by destruct (Pathlib.split_slash s).
Qed.

(** No component of a split has a separator. *)
Lemma split_slash_no_slash s x :
  In x (Pathlib.split_slash s) -> no_slash x = true.
Proof.
  revert x. induction s as [|c s IH]; intros x.
  - intros [<-|[]]. reflexivity.
  - cbn [Pathlib.split_slash]. destruct (Ascii.eqb c "/") eqn:Ec.
    + intros [<-|Hin]; [reflexivity|by apply IH].
    + destruct (Pathlib.split_slash s) as [|y ys] eqn:Es.
      * intros [<-|[]]. unfold no_slash. cbn [PyStr.all]. by rewrite Ec.
      * intros [<-|Hin].
        -- unfold no_slash. cbn [PyStr.all]. rewrite Ec. cbn [negb andb].
           apply IH. by left.
        -- apply IH. by right.
Qed.

(** A string without separator is its own single component. *)
Lemma split_slash_single s : no_slash s = true -> Pathlib.split_slash s = [s].
Proof.
  induction s as [|c s IH]; [done|]. unfold no_slash. cbn [PyStr.all].
  intros [Hc Hs]%andb_prop. cbn [Pathlib.split_slash].
  destruct (Ascii.eqb c "/"); [done|]. by rewrite (IH Hs).
Qed.

Lemma parts_single c s :
  no_slash (String c s) = true -> c ≠ "."%char ->
  Pathlib.parts (String c s) = [String c s].
Proof.
  intros Hs Hc. unfold Pathlib.parts. rewrite (split_slash_single _ Hs).
  cbn [List.filter]. unfold Pathlib.keep_part. cbn [String.eqb].
  destruct (Ascii.eqb_spec c "."); [done|]. reflexivity.
Qed.

Lemma name_no_slash s : no_slash (Pathlib.name s) = true.
Proof.
  unfold Pathlib.name, Pathlib.parts.
  assert (H : forall l : list string,
             (forall x, In x l -> no_slash x = true) ->
             no_slash (List.last l EmptyString) = true).
  { induction l as [|x [|y l] IH]; intros Hl; [done|by apply Hl; left|].
    change (List.last (x :: y :: l) EmptyString) with (List.last (y :: l) EmptyString).
    apply IH. intros z Hz. apply Hl. by right. }
  apply H. intros x [Hx _]%filter_In. by apply split_slash_no_slash in Hx.
Qed.

Lemma drop_no_slash i s : no_slash s = true -> no_slash (PyStr.drop i s) = true.
Proof.
  revert s. induction i as [|i IH]; intros [|c s]; try done.
  unfold no_slash. cbn [PyStr.all PyStr.drop]. intros [_ Hs]%andb_prop. by apply IH.
Qed.

Lemma suffix_no_slash s : no_slash (Pathlib.suffix s) = true.
Proof.
  unfold Pathlib.suffix. destruct (_ && _); [|done].
  apply drop_no_slash, name_no_slash.
Qed.

Lemma lower_ascii_slash c :
  Ascii.eqb (PyStr.lower_ascii c) "/" = Ascii.eqb c "/".
Proof. destruct c as [[] [] [] [] [] [] [] []]; reflexivity. Qed.

Lemma lower_no_slash s : no_slash (PyStr.lower s) = no_slash s.
Proof.
  induction s as [|c s IH]; [done|]. unfold no_slash in *.
  cbn [PyStr.lower PyStr.all]. by rewrite lower_ascii_slash, IH.
Qed.

Lemma digit_no_slash c : PyStr.is_digit c = true -> negb (Ascii.eqb c "/") = true.
Proof. destruct c as [[] [] [] [] [] [] [] []]; done. Qed.

Lemma canonical_from_no_slash s : forall i,
  Uuid.canonical_from i s = true -> no_slash s = true.
Proof.
  induction s as [|c s IH]; intros i; [done|]. cbn [Uuid.canonical_from].
  intros [Hc Hs]%andb_prop. unfold no_slash. cbn [PyStr.all].
  fold (no_slash s). rewrite (IH _ Hs), andb_true_r.
  destruct (_ || _).
  - apply Ascii.eqb_eq in Hc. by subst c.
  - revert Hc. destruct c as [[] [] [] [] [] [] [] []]; done.
Qed.

Lemma canonical_from_length s : forall i,
  Uuid.canonical_from i s = true -> (i + String.length s = 36)%nat.
Proof.
  induction s as [|c s IH]; intros i; cbn [Uuid.canonical_from String.length].
  - intros H%Nat.eqb_eq. lia.
  - intros [_ Hs]%andb_prop. apply IH in Hs. lia.
Qed.

Lemma uuid4_no_slash r : no_slash (Uuid.uuid4 r) = true.
Proof. apply (canonical_from_no_slash _ 0), uuid4_canonical. Qed.

Lemma uuid4_length r : String.length (Uuid.uuid4 r) = 36%nat.
Proof. apply (canonical_from_length _ 0), uuid4_canonical. Qed.

Lemma strftime_compact_length d :
  String.length (Datetime.strftime "%Y%m%d_%H%M%S" d) = 15%nat.
Proof. rewrite strftime_compact, !length_app_str, !dec_length. reflexivity. Qed.

Lemma strftime_compact_no_slash d :
  no_slash (Datetime.strftime "%Y%m%d_%H%M%S" d) = true.
Proof.
  rewrite strftime_compact, !no_slash_app.
  assert (H : forall w n, no_slash (PyStr.dec w n) = true).
  { intros w n. apply (all_impl PyStr.is_digit); [apply digit_no_slash|apply dec_digits]. }
  by rewrite !H.
Qed.

Lemma unique_filename_no_slash env name :
  no_slash (unique_filename_of env (PyStr.lower (Pathlib.suffix name))) = true.
Proof.
  unfold unique_filename_of.
  rewrite !no_slash_app, strftime_compact_no_slash, uuid4_no_slash,
    lower_no_slash, suffix_no_slash.
  reflexivity.
Qed.

Lemma temp_path_eq app env name :
  temp_path_of app env name =
  XRAY_TEMP_DIR app ++ [Uuid.uuid4 (rand128 env) +:+ PyStr.lower (Pathlib.suffix name)].
Proof.
  unfold temp_path_of. rewrite joinpath_rel by apply is_absolute_uuid. f_equal.
  pose proof (uuid4_no_slash (rand128 env)) as Hu.
  destruct (uuid4_head (rand128 env)) as (c & rest & E & Hc). rewrite E in *.
  rewrite app_cons. apply parts_single.
  - rewrite <- app_cons, no_slash_app, Hu, lower_no_slash, suffix_no_slash. done.
  - intros ->. done.
Qed.

Lemma save_path_eq app env name :
  save_path_of app env name =
  ECG_DIR app ++ [unique_filename_of env (PyStr.lower (Pathlib.suffix name))].
Proof.
  unfold save_path_of. rewrite joinpath_rel by apply is_absolute_unique_filename. f_equal.
  pose proof (unique_filename_no_slash env name) as Hn.
  unfold unique_filename_of in *. rewrite !app_cons in *. by apply parts_single.
Qed.

End Names.

(** X1: whatever the declared filename (also one with [..] or separators
    in it), the staging path is the direct child
    [<uuid><lowercased extension>] of [XRAY_TEMP_DIR] and the archival path
    the direct child [ecg_<timestamp>_<uuid><lowercased extension>] of
    [ECG_DIR]: the name the client sends cannot place the file elsewhere. *)
Theorem upload_paths_stay_in_their_directory app env name :
  temp_path_of app env name =
    XRAY_TEMP_DIR app ++
      [Uuid.uuid4 (rand128 env) +:+ PyStr.lower (Pathlib.suffix name)] /\
  save_path_of app env name =
    ECG_DIR app ++ [unique_filename_of env (PyStr.lower (Pathlib.suffix name))] /\
  Pathlib.parent (temp_path_of app env name) = XRAY_TEMP_DIR app /\
  Pathlib.parent (save_path_of app env name) = ECG_DIR app /\
  no_slash (PyStr.lower (Pathlib.suffix name)) = true.
Proof.
  rewrite temp_path_eq, save_path_eq. unfold Pathlib.parent.
  rewrite !removelast_last, lower_no_slash, suffix_no_slash. done.
Qed.

Example traversal_name_stays_inside :
  save_path_of sample_app sample_env "../../etc/Passwd.PDF" =
  ["srv"; "app"; "backend"; "uploads"; "ecg";
   "ecg_20240315_142530_00000000-0000-4000-8000-000000000000.pdf"].
Proof. vm_compute. reflexivity. Qed.

(** ** Letter case *)
Section LetterCase.

Lemma lower_ascii_idem c : PyStr.lower_ascii (PyStr.lower_ascii c) = PyStr.lower_ascii c.
Proof. destruct c as [[] [] [] [] [] [] [] []]; reflexivity. Qed.

Lemma lower_ascii_dot c : Ascii.eqb "." (PyStr.lower_ascii c) = Ascii.eqb "." c.
Proof. destruct c as [[] [] [] [] [] [] [] []]; reflexivity. Qed.

Lemma lower_idem s : PyStr.lower (PyStr.lower s) = PyStr.lower s.
Proof.
  induction s as [|c s IH]; [done|]. cbn [PyStr.lower].
  by rewrite lower_ascii_idem, IH.
Qed.

Lemma lower_length s : String.length (PyStr.lower s) = String.length s.
Proof. induction s as [|c s IH]; [done|]. cbn [PyStr.lower String.length]. by rewrite IH. Qed.

Lemma lower_drop i s : PyStr.drop i (PyStr.lower s) = PyStr.lower (PyStr.drop i s).
Proof. revert s. induction i as [|i IH]; intros [|c s]; try done. apply IH. Qed.

Lemma lower_rfind_dot s : PyStr.rfind "." (PyStr.lower s) = PyStr.rfind "." s.
Proof.
  induction s as [|c s IH]; [done|]. cbn [PyStr.lower PyStr.rfind].
  by rewrite IH, lower_ascii_dot.
Qed.

Lemma lower_split_slash s :
  Pathlib.split_slash (PyStr.lower s) = map PyStr.lower (Pathlib.split_slash s).
Proof.
  induction s as [|c s IH]; [done|]. cbn [PyStr.lower Pathlib.split_slash].
  rewrite lower_ascii_slash, IH. destruct (Ascii.eqb c "/"); [done|].
  by destruct (Pathlib.split_slash s).
Qed.

Lemma lower_ascii_is_dot c :
  Ascii.eqb (PyStr.lower_ascii c) "." = Ascii.eqb c ".".
Proof. destruct c as [[] [] [] [] [] [] [] []]; reflexivity. Qed.

Lemma lower_keep_part x : Pathlib.keep_part (PyStr.lower x) = Pathlib.keep_part x.
Proof.
  unfold Pathlib.keep_part. destruct x as [|c x]; [done|].
  cbn [PyStr.lower String.eqb]. rewrite lower_ascii_is_dot.
  by destruct x.
Qed.

Lemma lower_parts s : Pathlib.parts (PyStr.lower s) = map PyStr.lower (Pathlib.parts s).
Proof.
  unfold Pathlib.parts. rewrite lower_split_slash.
  induction (Pathlib.split_slash s) as [|x l IH]; [done|].
  cbn [map List.filter]. rewrite lower_keep_part, IH.
  by destruct (Pathlib.keep_part x).
Qed.

Lemma lower_name s : Pathlib.name (PyStr.lower s) = PyStr.lower (Pathlib.name s).
Proof.
  unfold Pathlib.name. rewrite lower_parts.
  induction (Pathlib.parts s) as [|x [|y l] IH]; try done.
Qed.

(** Lowering the name lowers the suffix. *)
Lemma lower_suffix s : Pathlib.suffix (PyStr.lower s) = PyStr.lower (Pathlib.suffix s).
Proof.
  unfold Pathlib.suffix, PyStr.len.
  rewrite lower_name, lower_rfind_dot, lower_length, lower_drop.
  by destruct (_ && _).
Qed.

End LetterCase.

(** X2: the archival handler looks at the filename only through its
    lowercased extension: sending the same upload under the lowercased
    name gives the same outcome and the same world. *)
Theorem upload_ecg_ignores_letter_case app env file name w :
  filename file = Some name ->
  upload_ecg app env (renamed file (PyStr.lower name)) w = upload_ecg app env file w.
Proof.
  intros Hname. unfold upload_ecg, Path_arg, renamed. cbn [filename].
  rewrite Hname, !bind_ret, lower_suffix, lower_idem. reflexivity.
Qed.

Lemma upload_ecg_ignores_letter_case_witness :
  upload_ecg sample_app sample_env (renamed chest_png (PyStr.lower "chest.PNG"))
    served_world =
  upload_ecg sample_app sample_env chest_png served_world.
Proof.
  exact (upload_ecg_ignores_letter_case sample_app sample_env chest_png
           "chest.PNG" served_world eq_refl).
Defined.

(** ** Running forward *)
Section Forward.
Context {A B : Type}.

Lemma bind_returned (m : M A) (k : A -> M B) w a w1 :
  m w = (Returned a, w1) -> bind m k w = k a w1.
Proof. unfold bind. by intros ->. Qed.

Lemma bind_raised (m : M A) (k : A -> M B) w e w1 :
  m w = (Raised e, w1) -> bind m k w = (Raised e, w1).
Proof. unfold bind. by intros ->. Qed.


Lemma try_raised (m : M A) (h : exn -> M A) w e w1 :
  m w = (Raised e, w1) -> try_except m h w = h e w1.
Proof. unfold try_except. by intros ->. Qed.

End Forward.

Ltac step_fs :=
  cbv [bind ret raise emit get_fs put_fs
       Os.mkdir Os.is_dir Os.exists_ Os.unlink Os.open_wb Os.write Os.stat_size];
  cbn [fs log].

Section ForwardFiles.
Implicit Types (t : gmap path node) (p : path) (w : World).

Lemma upload_read_clean file w :
  reads_cleanly file 0 -> upload_read file 0 w = (Returned (spool file), w).
Proof.
  unfold reads_cleanly, upload_read, readable. cbn [skipn].
  destruct (defect file) as [d|]; [|done]. intros H.
  destruct (Nat.ltb_spec d (length (spool file))); [|by rewrite andb_false_r].
  destruct H. lia.
Qed.


(** A path the system takes is looked up component by component. *)
Lemma passable_why t p :
  passable p = true ->
  Os.why_missing t p = Os.below t (rev (Pathlib.parent p)) (List.last p EmptyString).
Proof.
  unfold passable, Os.why_missing. intros [Hn Hl]%andb_prop.
  apply negb_true_iff in Hn. rewrite Hn. apply Nat.ltb_lt in Hl.
  destruct (Nat.leb_spec Os.PATH_MAX (String.length (Pathlib.str p))); [lia|done].
Qed.

Lemma below_dir t rp c :
  node_at t (rev rp) = Some Dir ->
  (String.length c <= Os.NAME_MAX)%nat ->
  Os.below t rp c = Os.NoEntry.
Proof.
  intros Hd Hc.
  destruct rp; cbn [Os.below]; rewrite Hd;
    (destruct (Nat.ltb_spec Os.NAME_MAX (String.length c)); [lia|done]).
Qed.


(** Under a directory [d] that has no entry [c], nothing is found: the
    lookup of [d/c/x] stops at [c] with ENOENT. *)
Lemma why_missing_no_parent t (d : path) c x :
  passable (d ++ [c; x]) = true ->
  node_at t d = Some Dir ->
  node_at t (d ++ [c]) = None ->
  (String.length c <= Os.NAME_MAX)%nat ->
  Os.why_missing t (d ++ [c; x]) = Os.NoEntry.
Proof.
  intros Hpass Hd Hn Hc. rewrite passable_why by done.
  rewrite parent_two, rev_unit. cbn [Os.below rev].
  rewrite rev_involutive, Hn.
  apply below_dir; [by rewrite rev_involutive|done].
Qed.


Lemma open_wb_refused p w :
  node_at (fs w) (Pathlib.parent p) = None ->
  Os.open_wb p w =
    (Raised (Os.missing_exn (Os.why_missing (fs w) p) p),
     {| fs := fs w; log := log w ++ [FsOpen p] |}).
Proof. intros Hpar. step_fs. by rewrite Hpar. Qed.





Lemma unlink_if_exists_absent p w :
  p ≠ [] ->
  fs w !! p = None ->
  Os.why_missing (fs w) p ≠ Os.TooLong ->
  unlink_if_exists p w =
    (Returned tt, {| fs := fs w; log := log w ++ [FsExists p] |}).
Proof.
  intros Hp Hf Hw. unfold unlink_if_exists. step_fs.
  rewrite !(node_at_ne _ _ Hp), !Hf.
  by destruct (Os.why_missing (fs w) p).
Qed.


End ForwardFiles.

(** ** The classification handler, forward *)
Section AnalyzeForward.
Variables (app : App) (svc : XRayService) (env : Env) (file : UploadFile).
Variables (name : string) (w : World).

Lemma temp_path_parent :
  Pathlib.parent (temp_path_of app env name) = XRAY_TEMP_DIR app.
Proof. rewrite temp_path_eq. apply removelast_last. Qed.

Lemma xray_temp_dir_child : XRAY_TEMP_DIR app = UPLOAD_DIR app ++ ["xray_temp"].
Proof. unfold XRAY_TEMP_DIR. by rewrite joinpath_rel. Qed.

Lemma temp_path_split :
  temp_path_of app env name =
  UPLOAD_DIR app ++
    ["xray_temp"; Uuid.uuid4 (rand128 env) +:+ PyStr.lower (Pathlib.suffix name)].
Proof.
  rewrite temp_path_eq, xray_temp_dir_eq, upload_dir_eq, <- !app_assoc. reflexivity.
Qed.



End AnalyzeForward.



(** The sample request meets the conditions under which the handler gets
    to the gateway. *)
Example sample_request_reaches_gateway :
  reads_cleanly chest_png 0 /\
  has_room sample_env (length (spool chest_png)) /\
  node_at (fs served_world) (XRAY_TEMP_DIR sample_app) = Some Dir /\
  fs served_world !! temp_path_of sample_app sample_env "chest.PNG" = None /\
  fits (temp_path_of sample_app sample_env "chest.PNG") = true /\
  plain (Pathlib.suffix "chest.PNG") = true.
Proof. repeat split; vm_compute; reflexivity. Qed.



(** X4: when the staging directory is missing from [uploads], a request
    that passes the checks is answered 500 with the message of the
    [FileNotFoundError] that [open] raised, which names the staging path;
    the gateway is not called and no file is created (the handler only
    tries to open the staging path and tests that it exists).  The path is
    one the system takes, and is taken to be ASCII, where [PyStr.repr] and
    [PyStr.lower] are Python's. *)
Theorem analyze_xray_without_staging_directory app svc env file ct name w :
  xray_service app = Some svc ->
  content_type file = Some ct ->
  PyStr.startswith ct "image/" = true ->
  filename file = Some name ->
  reads_cleanly file 0 ->
  node_at (fs w) (UPLOAD_DIR app) = Some Dir ->
  node_at (fs w) (XRAY_TEMP_DIR app) = None ->
  fs w !! temp_path_of app env name = None ->
  passable (temp_path_of app env name) = true ->
  plain (Pathlib.str (temp_path_of app env name)) = true ->
  analyze_xray app env file w =
    (Raised (HTTPException 500
               ("Analysis Error: [Errno 2] No such file or directory: " +:+
                PyStr.repr (Pathlib.str (temp_path_of app env name)))),
     {| fs := fs w;
        log := log w ++ [FsOpen (temp_path_of app env name);
                         FsExists (temp_path_of app env name)] |}).
Proof.
  intros Hsvc Hct Himg Hname Hread Hup Hdir Hfresh Hpass _.
  rewrite (analyze_xray_checked app env file svc ct name) by done.
  pose proof (temp_path_ne app env name) as Hp.
  pose proof (temp_path_parent app env name) as Hpar.
  assert (Hwhy : Os.why_missing (fs w) (temp_path_of app env name) = Os.NoEntry).
  { rewrite xray_temp_dir_child in Hdir.
    rewrite temp_path_split in Hpass |- *.
    apply why_missing_no_parent; try done.
    unfold Os.NAME_MAX. cbn. lia. }
  set (tp := temp_path_of app env name) in *.
  erewrite try_raised.
  2:{ unfold xray_try.
      rewrite (bind_returned _ _ _ _ _ (upload_read_clean file w Hread)).
      apply bind_raised, open_wb_refused. by rewrite Hpar. }
  unfold xray_except. erewrite bind_returned.
  2:{ apply unlink_if_exists_absent; [done|done|]. cbn [fs]. by rewrite Hwhy. }
  rewrite Hwhy. cbn [fs log]. by rewrite <- app_assoc.
Qed.

Lemma analyze_xray_without_staging_directory_witness :
  analyze_xray sample_app sample_env chest_png unstaged_world =
    (Raised (HTTPException 500
               ("Analysis Error: [Errno 2] No such file or directory: " +:+
                PyStr.repr (Pathlib.str (temp_path_of sample_app sample_env "chest.PNG")))),
     {| fs := fs unstaged_world;
        log := log unstaged_world ++
               [FsOpen (temp_path_of sample_app sample_env "chest.PNG");
                FsExists (temp_path_of sample_app sample_env "chest.PNG")] |}).
Proof.
  apply (analyze_xray_without_staging_directory sample_app svc_normal
           sample_env chest_png "image/png" "chest.PNG" unstaged_world
           eq_refl eq_refl eq_refl eq_refl).
  - exact I.
  - vm_compute. reflexivity.
  - vm_compute. reflexivity.
  - vm_compute. reflexivity.
  - vm_compute. reflexivity.
  - vm_compute. reflexivity.
Defined.

(** The detail of that reply, written out. *)
Example missing_staging_directory_detail :
  fst (serve (analyze_xray sample_app sample_env chest_png) unstaged_world) =
  ErrorReply 500
    "Analysis Error: [Errno 2] No such file or directory: '/srv/app/backend/uploads/xray_temp/00000000-0000-4000-8000-000000000000.png'".
Proof. vm_compute. reflexivity. Qed.



(** ** The archival handler, forward *)
Section ArchiveForward.
Variables (app : App) (env : Env) (file : UploadFile) (name : string) (w : World).

Lemma save_path_parent :
  Pathlib.parent (save_path_of app env name) = ECG_DIR app.
Proof. rewrite save_path_eq. apply removelast_last. Qed.


Lemma ecg_dir_child : ECG_DIR app = UPLOAD_DIR app ++ ["ecg"].
Proof. unfold ECG_DIR. by rewrite joinpath_rel. Qed.

Lemma save_path_split :
  save_path_of app env name =
  UPLOAD_DIR app ++
    ["ecg"; unique_filename_of env (PyStr.lower (Pathlib.suffix name))].
Proof.
  rewrite save_path_eq, ecg_dir_eq, upload_dir_eq, <- !app_assoc. reflexivity.
Qed.


(** Buffer number [i] is the slice [b[i*n : (i+1)*n]], as long as that
    starts inside [b]. *)
Lemma buffers_upto_lookup n :
  (0 < n)%nat ->
  forall fuel (b : bytes) i,
    (length b <= fuel)%nat ->
    buffers_upto fuel n b !! i =
    if (i * n <? length b)%nat then Some (take n (drop (i * n) b)) else None.
Proof.
  intros Hn. induction fuel as [|fuel IH]; intros [|x b'] i; cbn [length]; try lia.
  - intros _. cbn [buffers_upto]. rewrite lookup_nil.
    by destruct (Nat.ltb_spec (i * n) 0); [lia|].
  - intros _. cbn [buffers_upto]. rewrite lookup_nil.
    by destruct (Nat.ltb_spec (i * n) 0); [lia|].
  - intros Hlen. cbn [buffers_upto]. set (b := x :: b') in *.
    assert (Hb : length b = S (length b')) by done.
    destruct i as [|i].
    + cbn [lookup list_lookup Nat.mul]. rewrite drop_0.
      by destruct (Nat.ltb_spec 0 (length b)); [|lia].
    + rewrite lookup_cons. rewrite IH by (rewrite length_drop; lia).
      rewrite length_drop, drop_drop.
      replace (n + i * n)%nat with (S i * n)%nat by lia.
      destruct (Nat.ltb_spec (i * n) (length b - n)),
               (Nat.ltb_spec (S i * n) (S (length b'))); try done; lia.
Qed.



End ArchiveForward.



(** A body of 70000 bytes goes out in two buffers, of 65536 and of 4464
    bytes. *)
Example buffers_of_70000_bytes (b : bytes) :
  length b = (70 * 1000)%nat ->
  map length (buffers COPY_BUFSIZE b) = [(64 * 1024)%nat; (70 * 1000 - 64 * 1024)%nat].
Proof.
  intros Hb. apply list_eq. intros i. rewrite list_lookup_fmap.
  unfold buffers. rewrite (buffers_upto_lookup _ COPY_BUFSIZE_pos) by done.
  unfold COPY_BUFSIZE.
  destruct (Nat.ltb_spec (i * (64 * 1024)) (length b)) as [Hi|Hi].
  - assert (Hc : i = 0%nat \/ i = 1%nat) by lia.
    destruct Hc as [-> | ->]; cbn [fmap option_fmap option_map lookup list_lookup];
      f_equal; rewrite length_take, length_drop; lia.
  - destruct i as [|[|i]]; [lia..|]. reflexivity.
Qed.

(** X7: when the archive directory is missing from [uploads], an upload
    with an allowed extension is answered 500 with the message of the
    [FileNotFoundError] that [open] raised, which names the destination,
    and nothing is written: the handler only tries to open the
    destination.  The path is one the system takes, and is taken to be
    ASCII, where [PyStr.repr] is Python's [repr]. *)
Theorem upload_ecg_without_archive_directory app env file name w :
  filename file = Some name ->
  In (PyStr.lower (Pathlib.suffix name)) [".png"; ".jpg"; ".jpeg"; ".pdf"] ->
  node_at (fs w) (UPLOAD_DIR app) = Some Dir ->
  node_at (fs w) (ECG_DIR app) = None ->
  passable (save_path_of app env name) = true ->
  plain (Pathlib.str (save_path_of app env name)) = true ->
  upload_ecg app env file w =
    (Raised (HTTPException 500
               ("Upload Error: [Errno 2] No such file or directory: " +:+
                PyStr.repr (Pathlib.str (save_path_of app env name)))),
     {| fs := fs w; log := log w ++ [FsOpen (save_path_of app env name)] |}).
Proof.
  intros Hname Hin Hup Hdir Hpass _.
  rewrite (upload_ecg_checked app env file name) by done.
  assert (Hwhy : Os.why_missing (fs w) (save_path_of app env name) = Os.NoEntry).
  { rewrite ecg_dir_child in Hdir.
    rewrite save_path_split in Hpass |- *.
    apply why_missing_no_parent; try done.
    unfold Os.NAME_MAX. cbn. lia. }
  erewrite try_raised.
  2:{ unfold ecg_try. fold (save_path_of app env name).
      apply bind_raised, open_wb_refused. by rewrite save_path_parent. }
  rewrite Hwhy. reflexivity.
Qed.

Lemma upload_ecg_without_archive_directory_witness :
  upload_ecg sample_app sample_env scan_pdf unarchived_world =
    (Raised (HTTPException 500
               ("Upload Error: [Errno 2] No such file or directory: " +:+
                PyStr.repr (Pathlib.str (save_path_of sample_app sample_env "../Scan.PDF")))),
     {| fs := fs unarchived_world;
        log := log unarchived_world ++
               [FsOpen (save_path_of sample_app sample_env "../Scan.PDF")] |}).
Proof.
  apply (upload_ecg_without_archive_directory sample_app sample_env scan_pdf
           "../Scan.PDF" unarchived_world eq_refl).
  - vm_compute. auto.
  - vm_compute. reflexivity.
  - vm_compute. reflexivity.
  - vm_compute. reflexivity.
  - vm_compute. reflexivity.
Defined.

(** The detail of that reply, written out. *)
Example missing_archive_directory_detail :
  fst (serve (upload_ecg sample_app sample_env scan_pdf) unarchived_world) =
  ErrorReply 500
    "Upload Error: [Errno 2] No such file or directory: '/srv/app/backend/uploads/ecg/ecg_20240315_142530_00000000-0000-4000-8000-000000000000.pdf'".
Proof. vm_compute. reflexivity. Qed.

(** ** How the handlers can answer *)
Section Answers.
Variables (app : App) (env : Env) (file : UploadFile) (w : World).

(** The run of [analyze_xray] up to its [try] block. *)
Lemma analyze_xray_cases o w' :
  analyze_xray app env file w = (o, w') ->
  (xray_service app = None /\ w' = w /\
   o = Raised (HTTPException 503 "X-ray AI not initialized")) \/
  (exists svc, xray_service app = Some svc /\
     ((content_type file = None /\ w' = w /\ exists m, o = Raised (PyExc AttributeError m)) \/
      (exists ct, content_type file = Some ct /\
         PyStr.startswith ct "image/" = false /\ w' = w /\
         o = Raised (HTTPException 400 "Invalid file type")) \/
      (exists ct, content_type file = Some ct /\
         PyStr.startswith ct "image/" = true /\
         ((filename file = None /\ w' = w /\ exists m, o = Raised (PyExc TypeError m)) \/
          (exists name, filename file = Some name))))).
Proof.
  intros Hrun.
  destruct (xray_service app) as [svc|] eqn:Hsvc.
  2:{ left. unfold analyze_xray in Hrun. rewrite Hsvc in Hrun.
      inversion Hrun; subst. done. }
  right. exists svc. split; [done|].
  destruct (content_type file) as [ct|] eqn:Hct.
  2:{ left. rewrite (analyze_xray_untyped app svc) in Hrun by done.
      inversion Hrun; subst. eauto. }
  right. destruct (PyStr.startswith ct "image/") eqn:Himg.
  - right. exists ct. repeat split; try done.
    destruct (filename file) as [name|] eqn:Hname; [right; eauto|left].
    destruct (analyze_xray_unnamed app env file svc ct w Hsvc Hct Himg Hname) as [e He].
    unfold analyze_xray, opt_startswith, Path_arg in Hrun, He.
    rewrite Hsvc, Hct, Hname, bind_ret, Himg in Hrun.
    inversion Hrun; subst. eauto.
  - left. exists ct. unfold analyze_xray, opt_startswith in Hrun.
    rewrite Hsvc, Hct, bind_ret, Himg in Hrun. inversion Hrun; subst. done.
Qed.

End Answers.



(** A name too long for the file system does leave the handler
    unconverted, and one with a NUL byte is answered 500. *)
Example long_name_escapes_handler :
  exists m,
    fst (serve (analyze_xray sample_app sample_env long_named) served_world) =
    Unhandled (PyExc OSError m) /\
    PyStr.startswith m "[Errno 36] File name too long: '/srv/app/backend/uploads/xray_temp/00000000-0000-4000-8000-000000000000.xxx" = true.
Proof. eexists. split; vm_compute; reflexivity. Qed.

Example nul_name_is_converted :
  fst (serve (analyze_xray sample_app sample_env nul_named) served_world) =
  ErrorReply 500 "Analysis Error: embedded null byte".
Proof. vm_compute. reflexivity. Qed.

(** X9: the archival handler answers 200, 400 or 500 (the 500 detail
    starting with ["Upload Error: "]) and nothing else; an exception leaves
    it unconverted only when the filename is missing. *)
Theorem upload_ecg_possible_answers app env file w :
  match fst (serve (upload_ecg app env file) w) with
  | Ok200 r => e_success r = true
  | ErrorReply status detail =>
      (status = 400 /\ detail = "Only PNG, JPG, JPEG, PDF allowed") \/
      (status = 500 /\ exists m, detail = "Upload Error: " +:+ m)
  | Unhandled e => filename file = None
  end.
Proof.
  unfold serve. destruct (upload_ecg app env file w) as [o w'] eqn:Hrun. cbn [fst].
  destruct (filename file) as [name|] eqn:Hname.
  2:{ rewrite upload_ecg_unnamed in Hrun by done. by inversion Hrun. }
  destruct (str_in (PyStr.lower (Pathlib.suffix name)) allowed_extensions) eqn:Hin.
  2:{ rewrite (upload_ecg_disallowed app env file name) in Hrun; [|done|].
      - inversion Hrun. cbn [respond]. auto.
      - intros Hc. apply str_in_In in Hc. congruence. }
  apply str_in_In in Hin.
  pose proof (upload_ecg_inv app env file name w o w' Hname Hin Hrun)
    as (_ & [(e & _ & _ & ->)|(_ & [(e & k & _ & _ & ->)|(_ & _ & ->)])]);
    cbn [respond]; eauto.
Qed.

(** ** What the handlers leave alone *)
Section Frames.
Variables (app : App).

Lemma under_child (d : path) x : under d (d ++ [x]).
Proof. by apply prefix_app_r. Qed.

(** Nothing lies under both upload directories. *)
Lemma staging_and_archive_disjoint q :
  under (ECG_DIR app) q -> under (XRAY_TEMP_DIR app) q -> False.
Proof.
  rewrite ecg_dir_eq, xray_temp_dir_eq. intros [k1 ->] [k2 H].
  rewrite <- !app_assoc in H. apply app_inv_head in H. by inversion H.
Qed.

Lemma analyze_xray_frame env file w o w' :
  analyze_xray app env file w = (o, w') ->
  fs w' = fs w \/
  exists name, touched_only (temp_path_of app env name) (fs w) (fs w').
Proof.
  intros Hrun.
  destruct (analyze_xray_cases app env file w o w' Hrun)
    as [(_ & -> & _)|(svc & Hsvc & [(_ & -> & _)|[(ct & _ & _ & -> & _)|
        (ct & Hct & Himg & [(_ & -> & _)|(name & Hname)])]])]; auto.
  right. exists name.
  by destruct (analyze_xray_inv app env file svc ct name w o w'
                 Hsvc Hct Himg Hname Hrun) as (Ht & _).
Qed.

Lemma upload_ecg_frame env file w o w' :
  upload_ecg app env file w = (o, w') ->
  fs w' = fs w \/
  exists name data,
    (forall q, q ≠ save_path_of app env name -> fs w' !! q = fs w !! q) /\
    fs w' !! save_path_of app env name = Some (File data).
Proof.
  intros Hrun.
  destruct (filename file) as [name|] eqn:Hname.
  2:{ rewrite upload_ecg_unnamed in Hrun by done. inversion Hrun. by left. }
  destruct (str_in (PyStr.lower (Pathlib.suffix name)) allowed_extensions) eqn:Hin.
  2:{ rewrite (upload_ecg_disallowed app env file name) in Hrun; [|done|].
      - inversion Hrun. by left.
      - intros Hc. apply str_in_In in Hc. congruence. }
  apply str_in_In in Hin.
  pose proof (upload_ecg_inv app env file name w o w' Hname Hin Hrun)
    as (Hframe & [(e & _ & Hfs & _)|(_ & [(e & k & _ & Hf & _)|(_ & Hf & _)])]).
  - by left.
  - right. exists name. eexists. split; [exact Hframe|exact Hf].
  - right. exists name. eexists. split; [exact Hframe|exact Hf].
Qed.

End Frames.

(** X10: whatever the request and however it ends, the classification
    handler changes nothing outside the staging directory; in particular
    it never touches an archived file. *)
Theorem analyze_xray_changes_only_staging app env file w o w' :
  analyze_xray app env file w = (o, w') ->
  (forall q, ~ under (XRAY_TEMP_DIR app) q -> fs w' !! q = fs w !! q) /\
  (forall q, under (ECG_DIR app) q -> fs w' !! q = fs w !! q).
Proof.
  intros Hrun.
  assert (H : forall q, ~ under (XRAY_TEMP_DIR app) q -> fs w' !! q = fs w !! q).
  { intros q Hq.
    destruct (analyze_xray_frame app env file w o w' Hrun) as [->|(name & Ht)]; [done|].
    apply Ht. intros ->. apply Hq. rewrite temp_path_eq. apply under_child. }
  split; [exact H|]. intros q Hq. apply H. intros Hx.
  by apply (staging_and_archive_disjoint app q).
Qed.

Lemma analyze_xray_changes_only_staging_witness :
  let run := analyze_xray failing_app full_disk_env chest_png served_world in
  (forall q, ~ under (XRAY_TEMP_DIR failing_app) q ->
             fs (snd run) !! q = fs served_world !! q) /\
  (forall q, under (ECG_DIR failing_app) q ->
             fs (snd run) !! q = fs served_world !! q).
Proof.
  exact (analyze_xray_changes_only_staging failing_app full_disk_env chest_png
           served_world _ _ (surjective_pairing _)).
Defined.

(** X11: whatever the request and however it ends, the archival handler
    changes nothing outside the archive directory, never touches the
    staging directory, and removes nothing: every path that existed still
    exists. *)
Theorem upload_ecg_changes_only_archive app env file w o w' :
  upload_ecg app env file w = (o, w') ->
  (forall q, ~ under (ECG_DIR app) q -> fs w' !! q = fs w !! q) /\
  (forall q, under (XRAY_TEMP_DIR app) q -> fs w' !! q = fs w !! q) /\
  (forall q, fs w !! q ≠ None -> fs w' !! q ≠ None).
Proof.
  intros Hrun.
  destruct (upload_ecg_frame app env file w o w' Hrun) as [->|(name & data & Hframe & Hf)];
    [done|].
  assert (H : forall q, ~ under (ECG_DIR app) q -> fs w' !! q = fs w !! q).
  { intros q Hq. apply Hframe. intros ->. apply Hq.
    rewrite save_path_eq. apply under_child. }
  split; [exact H|]. split.
  - intros q Hq. apply H. intros Hx. by apply (staging_and_archive_disjoint app q).
  - intros q Hq. destruct (decide (q = save_path_of app env name)) as [->|Hne].
    + by rewrite Hf.
    + by rewrite (Hframe q Hne).
Qed.

Lemma upload_ecg_changes_only_archive_witness :
  let run := upload_ecg sample_app full_disk_env scan_pdf served_world in
  (forall q, ~ under (ECG_DIR sample_app) q ->
             fs (snd run) !! q = fs served_world !! q) /\
  (forall q, under (XRAY_TEMP_DIR sample_app) q ->
             fs (snd run) !! q = fs served_world !! q) /\
  (forall q, fs served_world !! q ≠ None -> fs (snd run) !! q ≠ None).
Proof.
  exact (upload_ecg_changes_only_archive sample_app full_disk_env scan_pdf
           served_world _ _ (surjective_pairing _)).
Defined.

(** ** Distinct identifiers, distinct archives *)
Section Distinct.

Lemma app_eq_same_length a1 a2 b1 b2 :
  String.length a1 = String.length a2 ->
  a1 +:+ b1 = a2 +:+ b2 -> a1 = a2 /\ b1 = b2.
Proof.
  revert a2. induction a1 as [|c a1 IH]; intros [|d a2] Hlen; try done.
  rewrite !app_cons. intros [= -> H]. cbn in Hlen.
  destruct (IH a2 ltac:(lia) H) as [-> ->]. done.
Qed.

(** The archival name determines the identifier in it. *)
Lemma unique_filename_inj env1 env2 e1 e2 :
  unique_filename_of env1 e1 = unique_filename_of env2 e2 ->
  Uuid.uuid4 (rand128 env1) = Uuid.uuid4 (rand128 env2) /\
  Datetime.strftime "%Y%m%d_%H%M%S" (clock env1 0) =
  Datetime.strftime "%Y%m%d_%H%M%S" (clock env2 0) /\
  e1 = e2.
Proof.
  unfold unique_filename_of.
  pose proof (strftime_compact_length (clock env1 0)) as Hl1.
  pose proof (strftime_compact_length (clock env2 0)) as Hl2.
  pose proof (uuid4_length (rand128 env1)) as Hu1.
  pose proof (uuid4_length (rand128 env2)) as Hu2.
  revert Hl1 Hl2 Hu1 Hu2.
  generalize (Datetime.strftime "%Y%m%d_%H%M%S" (clock env1 0))
             (Datetime.strftime "%Y%m%d_%H%M%S" (clock env2 0))
             (Uuid.uuid4 (rand128 env1)) (Uuid.uuid4 (rand128 env2)).
  intros ts1 ts2 u1 u2 Hl1 Hl2 Hu1 Hu2 H.
  apply (inj (String.app "ecg_")) in H.
  apply app_eq_same_length in H as [Hts H]; [|congruence].
  apply (inj (String.app "_")) in H.
  apply app_eq_same_length in H as [Hu He]; [|congruence].
  done.
Qed.

Lemma save_path_distinct app env1 env2 n1 n2 :
  Uuid.uuid4 (rand128 env1) ≠ Uuid.uuid4 (rand128 env2) ->
  save_path_of app env1 n1 ≠ save_path_of app env2 n2.
Proof.
  intros Hu. rewrite !save_path_eq. intros H.
  apply app_inv_head in H.
  match type of H with [?a] = [?b] => assert (Hn : a = b) by congruence end.
  by apply unique_filename_inj in Hn as [? _].
Qed.

End Distinct.

(** X12: an archived upload is not overwritten by a later upload that drew
    a different identifier: after the later request, whatever it was and
    however it ended, the file of the earlier one is still at its returned
    path with the same content. *)
Theorem later_upload_keeps_earlier_archive app env1 file1 w r1 w1 env2 file2 o2 w2 :
  upload_ecg app env1 file1 w = (Returned r1, w1) ->
  Uuid.uuid4 (rand128 env1) ≠ Uuid.uuid4 (rand128 env2) ->
  upload_ecg app env2 file2 w1 = (o2, w2) ->
  exists data,
    fs w1 !! (BASE_DIR app // fi_path (e_file_info r1)) = Some (File data) /\
    fs w2 !! (BASE_DIR app // fi_path (e_file_info r1)) = Some (File data).
Proof.
  intros Hrun1 Hu Hrun2.
  destruct (filename file1) as [n1|] eqn:Hn1.
  2:{ by rewrite upload_ecg_unnamed in Hrun1. }
  destruct (str_in (PyStr.lower (Pathlib.suffix n1)) allowed_extensions) eqn:Hin.
  2:{ rewrite (upload_ecg_disallowed app env1 file1 n1) in Hrun1; [done..|].
      intros Hc. apply str_in_In in Hc. congruence. }
  apply str_in_In in Hin.
  pose proof (upload_ecg_inv app env1 file1 n1 w _ w1 Hn1 Hin Hrun1)
    as (_ & [(? & _ & _ & ?)|(_ & [(? & ? & _ & _ & ?)|(_ & Hfile & Hr)])]);
    [done..|].
  inversion Hr; subst r1; clear Hr. cbn [fi_path e_file_info].
  rewrite returned_path_is_save_path by apply is_absolute_unique_filename.
  fold (save_path_of app env1 n1) in *.
  eexists. split; [exact Hfile|].
  destruct (upload_ecg_frame app env2 file2 w1 o2 w2 Hrun2)
    as [->|(n2 & data & Hframe & _)]; [done|].
  rewrite Hframe; [done|]. by apply save_path_distinct.
Qed.

Lemma later_upload_keeps_earlier_archive_witness :
  let first := upload_ecg sample_app sample_env chest_png served_world in
  let r1 := {| e_success := true;
               e_message := "ECG uploaded successfully";
               e_file_info :=
                 {| fi_filename :=
                      "ecg_20240315_142530_00000000-0000-4000-8000-000000000000.png";
                    fi_path :=
                      "uploads/ecg/ecg_20240315_142530_00000000-0000-4000-8000-000000000000.png";
                    fi_size_mb := 0;
                    fi_timestamp := "2024-03-15T14:25:30" |} |} in
  let second := upload_ecg sample_app other_env chest_png (snd first) in
  exists data,
    fs (snd first) !! (BASE_DIR sample_app // fi_path (e_file_info r1))
      = Some (File data) /\
    fs (snd second) !! (BASE_DIR sample_app // fi_path (e_file_info r1))
      = Some (File data).
Proof.
  refine (later_upload_keeps_earlier_archive sample_app sample_env chest_png
            served_world _ _ other_env chest_png _ _
            (pair_fst_snd _ _ _) _ (surjective_pairing _)).
  - vm_compute. reflexivity.
  - vm_compute. discriminate.
Defined.

(** ** Liveness of the gateway, as reported and as served *)

(** With the gateway available no request is answered 503. *)
Lemma analyze_xray_available_not_503 app svc env file w detail :
  xray_service app = Some svc ->
  fst (serve (analyze_xray app env file) w) ≠ ErrorReply 503 detail.
Proof.
  intros Hsvc. unfold serve.
  destruct (analyze_xray app env file w) as [o w'] eqn:Hrun. cbn [fst].
  destruct (analyze_xray_cases app env file w o w' Hrun)
    as [(? & _)|(svc' & _ & [(_ & _ & m & ->)|[(ct & _ & _ & _ & ->)|
        (ct & Hct & Himg & [(_ & _ & m & ->)|(name & Hname)])]])];
    [congruence|done..|].
  pose proof (analyze_xray_inv app env file svc ct name w o w'
                Hsvc Hct Himg Hname Hrun) as (_ & Hcase).
  by destruct Hcase as [(res & -> & _)|
                        (e & l & lx & _ & _ & _ &
                         [(_ & _ & ->)|[(_ & _ & ->)|(_ & _ & _ & _ & _ & ->)]])].
Qed.

Lemma analyze_xray_unavailable_503 app env file w :
  xray_service app = None ->
  fst (serve (analyze_xray app env file) w) =
  ErrorReply 503 "X-ray AI not initialized".
Proof. intros Hsvc. unfold serve, analyze_xray. by rewrite Hsvc. Qed.

(** X13: the three places that report the gateway agree.  [/health] says
    ["active"] exactly when the start-up banner says [Active], and exactly
    when no request to [/api/xray/analyze] is ever answered 503; it says
    ["inactive"] exactly when every such request is answered 503.  The
    other fields of [/health] do not vary. *)
Theorem gateway_liveness_reported_as_served app env :
  (h_xray_ai (health_check app env) = "active" \/
   h_xray_ai (health_check app env) = "inactive") /\
  (h_xray_ai (health_check app env) = "active" <->
   In "✓ X-ray AI: Active" (startup app)) /\
  (h_xray_ai (health_check app env) = "active" <->
   forall env' file w detail,
     fst (serve (analyze_xray app env' file) w) ≠ ErrorReply 503 detail) /\
  (h_xray_ai (health_check app env) = "inactive" <->
   forall env' file w,
     fst (serve (analyze_xray app env' file) w) =
     ErrorReply 503 "X-ray AI not initialized") /\
  h_status (health_check app env) = "healthy" /\
  h_ecg_storage (health_check app env) = "active".
Proof.
  pose proof (analyze_xray_available_not_503 app) as Havail.
  pose proof (analyze_xray_unavailable_503 app) as Hdown.
  unfold health_check, startup. cbn [h_xray_ai h_status h_ecg_storage].
  destruct (xray_service app) as [svc|].
  - specialize (Havail svc).
    split; [by left|]. split; [|split; [|split; [|done]]].
    + split; [intros _|done]. cbn. auto 6.
    + split; [intros _|done]. intros env' file w detail. by apply Havail.
    + split; [done|]. intros H.
      by destruct (Havail sample_env chest_png fresh_world
                     "X-ray AI not initialized" eq_refl (H _ _ _)).
  - split; [by right|]. split; [|split; [|split; [|done]]].
    + split; [done|]. cbn. intuition discriminate.
    + split; [done|]. intros H.
      by destruct (H sample_env chest_png fresh_world "X-ray AI not initialized"
                     (Hdown _ _ _ eq_refl)).
    + split; [intros _|done]. intros env' file w. by apply Hdown.
Qed.

(** ** Loading the module *)

(** X14: a regular file where one of the two upload directories should be
    makes the module body raise: the process does not come up with a
    broken store, whatever the gateway would have done. *)
Theorem load_module_fails_on_blocked_directory file__ ctor w d :
  node_at (fs w) (Pathlib.parent file__ ++ ["uploads"; "ecg"]) = Some (File d) \/
  node_at (fs w) (Pathlib.parent file__ ++ ["uploads"; "xray_temp"]) = Some (File d) ->
  exists e, fst (load_module file__ ctor w) = Raised e.
Proof.
  intros Hblocked. rewrite load_module_eq. cbv zeta.
  set (ecg := Pathlib.parent file__ ++ ["uploads"; "ecg"]) in *.
  set (tmp := Pathlib.parent file__ ++ ["uploads"; "xray_temp"]) in *.
  assert (Hkeep : forall (t t' : gmap path node) p,
            adds_dirs t t' -> node_at t p = Some (File d) -> node_at t' p = Some (File d)).
  { intros t t' p Ha Hf. destruct (Ha p) as [E|[E _]]; congruence. }
  destruct (Path_mkdir ecg true true w) as [o1 w1] eqn:H1.
  apply Path_mkdir_inv in H1 as ((Ha1 & Hs1 & _) & _).
  destruct o1 as [[]|e1]; [|by exists e1].
  destruct (Hs1 eq_refl) as (He1 & _).
  destruct (Path_mkdir tmp true true w1) as [o2 w2] eqn:H2.
  apply Path_mkdir_inv in H2 as ((Ha2 & Hs2 & _) & _).
  destruct o2 as [[]|e2]; [|by exists e2].
  destruct (Hs2 eq_refl) as (Ht2 & _).
  destruct Hblocked as [Hf|Hf].
  - apply (Hkeep _ _ _ Ha1) in Hf. congruence.
  - apply (Hkeep _ _ _ Ha1), (Hkeep _ _ _ Ha2) in Hf. congruence.
Qed.

Lemma load_module_fails_on_blocked_directory_witness :
  exists e,
    fst (load_module (backend_dir ++ ["main.py"]) (Returned svc_normal) blocked_world)
    = Raised e.
Proof.
  apply (load_module_fails_on_blocked_directory (backend_dir ++ ["main.py"])
           (Returned svc_normal) blocked_world three_bytes).
  left. vm_compute. reflexivity.
Defined.

(** ** The reported size *)

(** X15: the size reported by [upload_ecg], [round(st_size / (1024 * 1024), 2)]
    in hundredths of a MiB, never decreases when the size grows, and is
    zero exactly for files of at most 5242 bytes. *)
Theorem size_mb_monotone_and_zero_threshold (n m : Z) :
  (0 <= n <= m)%Z ->
  (round2 n (1024 * 1024) <= round2 m (1024 * 1024))%Z /\
  (0 <= round2 n (1024 * 1024))%Z /\
  (round2 n (1024 * 1024) = 0 <-> n <= 5242)%Z.
Proof.
  intros Hnm. unfold round2.
  change (1024 * 1024)%Z with 1048576%Z.
  assert (Hpar : forall q : Z,
            (Z.even q = true /\ exists k : Z, q = (2 * k)%Z) \/
            (Z.even q = false /\ exists k : Z, q = (2 * k + 1)%Z)).
  { intros q. destruct (Z.even q) eqn:E; [left|right]; (split; [done|]).
    - by apply Z.even_spec.
    - apply Z.odd_spec. by rewrite <- Z.negb_odd, Bool.negb_false_iff in E. }
  destruct (Hpar (100 * n / 1048576)%Z) as [(-> & kn & En)|(-> & kn & En)],
           (Hpar (100 * m / 1048576)%Z) as [(-> & km & Em)|(-> & km & Em)];
    repeat match goal with
           | |- context [(?a <? ?b)%Z] => destruct (Z.ltb_spec a b)
           end;
    Z.div_mod_to_equations; lia.
Qed.

Lemma size_mb_monotone_and_zero_threshold_witness :
  (round2 5242 (1024 * 1024) <= round2 5243 (1024 * 1024))%Z /\
  (0 <= round2 5242 (1024 * 1024))%Z /\
  (round2 5242 (1024 * 1024) = 0 <-> 5242 <= 5242)%Z.
Proof. apply (size_mb_monotone_and_zero_threshold 5242 5243). lia. Defined.

(** The 404 body offers only endpoints that [GET /] lists. *)
Example not_found_offers_listed_endpoints :
  forall p, In p (nf_available not_found) -> In p (r_endpoints root).
Proof. cbn. intuition. Qed.
